(** * grapher_admin.models: chart cache tags, resolved configs and slug redirects

    A shallow embedding of the three helper operations of
    [grapher_admin/models.py] ([Chart.make_cache_tag],
    [Chart.get_config_with_url], [Chart.find_with_redirects]) together with
    the parts of the Python runtime they call: [hashlib.md5], [str] of
    [datetime] and [bytes], item access on decoded JSON values, and the
    Django manager calls [filter] and [get] over in-memory tables. *)

From Stdlib Require Import ZArith NArith List String Ascii Bool Lia DecimalString.
Import ListNotations.
Open Scope string_scope.
Open Scope Z_scope.

(* ===================================================================== *)
(** ** Exceptions *)
(* ===================================================================== *)

(** The Django models whose managers the code calls [get] on. *)
Inductive model := ChartModel | ChartSlugRedirectModel.

(** The Python exceptions the three operations can raise. *)
Inductive exn :=
| JSONDecodeError
| KeyError (key : string)
| TypeError
| ValueError
| OverflowError
| DoesNotExist (m : model)
| MultipleObjectsReturned (m : model).

(** A computation either returns a value or raises. *)
Inductive result (A : Type) :=
| Ok (a : A)
| Raise (e : exn).
Arguments Ok {A} a.
Arguments Raise {A} e.

Definition bind {A B} (r : result A) (k : A -> result B) : result B :=
  match r with
  | Ok a => k a
  | Raise e => Raise e
  end.

Notation "x <- r ;; k" := (bind r (fun x => k))
  (at level 61, r at next level, right associativity).

Definition is_ok {A} (r : result A) : bool :=
  match r with Ok _ => true | Raise _ => false end.

(* ===================================================================== *)
(** ** hashlib.md5 (RFC 1321) *)
(* ===================================================================== *)

Module Hashlib.

Definition w32 (x : Z) : Z := x mod 2 ^ 32.
Definition add32 (a b : Z) : Z := w32 (a + b).
Definition not32 (a : Z) : Z := Z.lxor (w32 a) 0xffffffff.
Definition rotl32 (x : Z) (n : Z) : Z :=
  w32 (Z.lor (Z.shiftl x n) (Z.shiftr x (32 - n))).

(** K[i] = floor(2^32 * abs(sin(i + 1))). *)
Definition K : list Z :=
  [ 0xd76aa478; 0xe8c7b756; 0x242070db; 0xc1bdceee; 0xf57c0faf; 0x4787c62a;
    0xa8304613; 0xfd469501; 0x698098d8; 0x8b44f7af; 0xffff5bb1; 0x895cd7be;
    0x6b901122; 0xfd987193; 0xa679438e; 0x49b40821; 0xf61e2562; 0xc040b340;
    0x265e5a51; 0xe9b6c7aa; 0xd62f105d; 0x02441453; 0xd8a1e681; 0xe7d3fbc8;
    0x21e1cde6; 0xc33707d6; 0xf4d50d87; 0x455a14ed; 0xa9e3e905; 0xfcefa3f8;
    0x676f02d9; 0x8d2a4c8a; 0xfffa3942; 0x8771f681; 0x6d9d6122; 0xfde5380c;
    0xa4beea44; 0x4bdecfa9; 0xf6bb4b60; 0xbebfbc70; 0x289b7ec6; 0xeaa127fa;
    0xd4ef3085; 0x04881d05; 0xd9d4d039; 0xe6db99e5; 0x1fa27cf8; 0xc4ac5665;
    0xf4292244; 0x432aff97; 0xab9423a7; 0xfc93a039; 0x655b59c3; 0x8f0ccc92;
    0xffeff47d; 0x85845dd1; 0x6fa87e4f; 0xfe2ce6e0; 0xa3014314; 0x4e0811a1;
    0xf7537e82; 0xbd3af235; 0x2ad7d2bb; 0xeb86d391 ].

(** Per-round left-rotation amounts. *)
Definition S : list Z :=
  [ 7; 12; 17; 22; 7; 12; 17; 22; 7; 12; 17; 22; 7; 12; 17; 22;
    5; 9; 14; 20; 5; 9; 14; 20; 5; 9; 14; 20; 5; 9; 14; 20;
    4; 11; 16; 23; 4; 11; 16; 23; 4; 11; 16; 23; 4; 11; 16; 23;
    6; 10; 15; 21; 6; 10; 15; 21; 6; 10; 15; 21; 6; 10; 15; 21 ].

Record state := { sa : Z; sb : Z; sc : Z; sd : Z }.

Definition init : state :=
  {| sa := 0x67452301; sb := 0xefcdab89; sc := 0x98badcfe; sd := 0x10325476 |}.

(** One of the 64 operations of a block; [M] holds the block's 16 words. *)
Definition step (M : list Z) (st : state) (i : nat) : state :=
  let '(a, b, c, d) := (sa st, sb st, sc st, sd st) in
  let '(f, g) :=
    if (i <? 16)%nat then
      (Z.lor (Z.land b c) (Z.land (not32 b) d), i)
    else if (i <? 32)%nat then
      (Z.lor (Z.land d b) (Z.land (not32 d) c), ((5 * i + 1) mod 16)%nat)
    else if (i <? 48)%nat then
      (Z.lxor (Z.lxor b c) d, ((3 * i + 5) mod 16)%nat)
    else
      (Z.lxor c (Z.lor b (not32 d)), ((7 * i) mod 16)%nat) in
  let f' := add32 (add32 (add32 f a) (nth i K 0)) (nth g M 0) in
  {| sa := d; sb := add32 b (rotl32 f' (nth i S 0)); sc := b; sd := c |}.

(** Little-endian 32-bit words of a block of bytes. *)
Fixpoint words (bs : list Z) : list Z :=
  match bs with
  | b0 :: b1 :: b2 :: b3 :: rest =>
      (b0 + 256 * b1 + 65536 * b2 + 16777216 * b3) :: words rest
  | _ => []
  end.

Definition process_block (st : state) (block : list Z) : state :=
  let r := fold_left (step (words block)) (seq 0 64) st in
  {| sa := add32 (sa st) (sa r); sb := add32 (sb st) (sb r);
     sc := add32 (sc st) (sc r); sd := add32 (sd st) (sd r) |}.

(** The message is consumed in 64-byte blocks; [n] bounds their number. *)
Fixpoint process (n : nat) (st : state) (bs : list Z) : state :=
  match n, bs with
  | O, _ | _, [] => st
  | Datatypes.S n', _ => process n' (process_block st (firstn 64 bs)) (skipn 64 bs)
  end.

Fixpoint le_bytes (n : nat) (x : Z) : list Z :=
  match n with
  | O => []
  | Datatypes.S n' => (x mod 256) :: le_bytes n' (x / 256)
  end.

(** Padding: a 1 bit, zero bits up to 56 mod 64 bytes, then the bit length
    on 64 bits, low-order byte first. *)
Definition pad (msg : list Z) : list Z :=
  let len := Z.of_nat (List.length msg) in
  (msg ++ [0x80] ++ repeat 0 (Z.to_nat ((55 - len) mod 64))
       ++ le_bytes 8 ((8 * len) mod 2 ^ 64))%list.

Definition digest_of_state (st : state) : list Z :=
  (le_bytes 4 (sa st) ++ le_bytes 4 (sb st)
   ++ le_bytes 4 (sc st) ++ le_bytes 4 (sd st))%list.

(** [hashlib.md5(); m.update(msg); m.digest()] *)
Definition md5 (msg : list Z) : list Z :=
  let padded := pad msg in
  digest_of_state (process (List.length padded) init padded).

Definition hex_digit (n : Z) : ascii :=
  ascii_of_N (Z.to_N (if n <? 10 then 48 + n else 87 + n)).

Definition hex_byte (b : Z) : string :=
  String (hex_digit (b / 16 mod 16)) (String (hex_digit (b mod 16)) EmptyString).

Definition hex (bs : list Z) : string :=
  fold_right (fun b acc => hex_byte b ++ acc) "" bs.

(** [m.hexdigest()] *)
Definition md5_hexdigest (msg : list Z) : string := hex (md5 msg).

End Hashlib.

(** [s.encode(encoding='utf-8')]: a Python [str] is modelled by the string of
    its UTF-8 code units, so encoding lists them. *)
Definition encode_utf8 (s : string) : list Z :=
  map (fun c => Z.of_N (N_of_ascii c)) (list_ascii_of_string s).


(* ===================================================================== *)
(** ** Python values *)
(* ===================================================================== *)

(** A Python [float]: not-a-number, an infinity, or the finite value
    [m * 2 ^ e]. *)
Inductive pyfloat :=
| FNaN
| FInf (negative : bool)
| FFinite (m e : Z).

#[local] Set Warnings "-register-all".

(** What [json.loads] builds: [None], [bool], [int], [float], [str], [list]
    and [dict].  A [dict] keeps its keys in insertion order, each key once. *)
Inductive json :=
| JNull
| JBool (b : bool)
| JInt (n : Z)
| JFloat (f : pyfloat)
| JStr (s : string)
| JList (l : list json)
| JDict (d : list (string * json)).

Definition dict := list (string * json).

Fixpoint dict_get (k : string) (d : dict) : option json :=
  match d with
  | [] => None
  | (k', v) :: d' => if String.eqb k k' then Some v else dict_get k d'
  end.

(** [d[k] = v] on a dict: an existing key keeps its position, a new key goes
    last. *)
Fixpoint dict_set (k : string) (v : json) (d : dict) : dict :=
  match d with
  | [] => [(k, v)]
  | (k', v') :: d' =>
      if String.eqb k k' then (k, v) :: d' else (k', v') :: dict_set k v d'
  end.

Fixpoint contains (needle hay : string) : bool :=
  prefix needle hay ||
  match hay with
  | EmptyString => false
  | String _ hay' => contains needle hay'
  end.

(** [k in x] for a [str] key [k]. *)
Definition py_contains (k : string) (x : json) : result bool :=
  match x with
  | JDict d => Ok (match dict_get k d with Some _ => true | None => false end)
  | JList l =>
      Ok (existsb (fun y => match y with JStr s => String.eqb k s | _ => false end) l)
  | JStr s => Ok (contains k s)
  | JNull | JBool _ | JInt _ | JFloat _ => Raise TypeError
  end.

(** [x[k]] for a [str] key [k]. *)
Definition py_getitem (x : json) (k : string) : result json :=
  match x with
  | JDict d =>
      match dict_get k d with
      | Some v => Ok v
      | None => Raise (KeyError k)
      end
  | _ => Raise TypeError
  end.

(** [x[k] = v] for a [str] key [k]. *)
Definition py_setitem (x : json) (k : string) (v : json) : result json :=
  match x with
  | JDict d => Ok (JDict (dict_set k v d))
  | _ => Raise TypeError
  end.

(** [for y in x]: the items a loop over [x] visits.  A [dict] yields its
    keys, a [str] its characters (here: its code units, one-character
    strings). *)
Definition py_iter (x : json) : result (list json) :=
  match x with
  | JList l => Ok l
  | JDict d => Ok (map (fun kv => JStr (fst kv)) d)
  | JStr s => Ok (map (fun c => JStr (String c EmptyString)) (list_ascii_of_string s))
  | JNull | JBool _ | JInt _ | JFloat _ => Raise TypeError
  end.

(** [int(f)] for a float: truncation towards zero. *)
Definition int_of_float (f : pyfloat) : result Z :=
  match f with
  | FNaN => Raise ValueError
  | FInf _ => Raise OverflowError
  | FFinite m e => Ok (if 0 <=? e then m * 2 ^ e else Z.quot m (2 ^ (- e)))
  end.

(** The parts of the runtime taken as given: the JSON decoder, [int] on text,
    and how Django turns the right-hand side of a [name__in] lookup into the
    names it compares with, known here on lists of text. *)
Class Runtime := {
  json_loads : string -> option json;
  int_of_str : string -> option Z;
  name_in_names : json -> result (list string);
  name_in_names_text :
    forall names, name_in_names (JList (map JStr names)) = Ok names
}.

Section Builtins.
Context {rt : Runtime}.

(** [json.loads(s)], raising [JSONDecodeError] on text that is not JSON. *)
Definition loads (s : string) : result json :=
  match json_loads s with
  | Some v => Ok v
  | None => Raise JSONDecodeError
  end.

(** [int(x)] *)
Definition py_int (x : json) : result Z :=
  match x with
  | JInt n => Ok n
  | JBool b => Ok (if b then 1 else 0)
  | JFloat f => int_of_float f
  | JStr s =>
      match int_of_str s with
      | Some n => Ok n
      | None => Raise ValueError
      end
  | JNull | JList _ | JDict _ => Raise TypeError
  end.

End Builtins.

(** [sep.join(parts)] *)
Fixpoint join (sep : string) (parts : list string) : string :=
  match parts with
  | [] => ""
  | [p] => p
  | p :: rest => p ++ sep ++ join sep rest
  end.

(** ["%0<width>d" % n] for [n >= 0]. *)
Definition zero_pad (width : nat) (n : N) : string :=
  let digits := NilZero.string_of_uint (N.to_uint n) in
  string_of_list_ascii (repeat "0"%char (width - String.length digits)) ++ digits.

Module Datetime.

(** [datetime.datetime]; [utcoffset] is [None] for a naive value and the
    offset in microseconds for an aware one. *)
Record t := {
  year : N; month : N; day : N;
  hour : N; minute : N; second : N; microsecond : N;
  utcoffset : option Z
}.

Definition format_time (d : t) : string :=
  zero_pad 2 (hour d) ++ ":" ++ zero_pad 2 (minute d) ++ ":" ++ zero_pad 2 (second d)
  ++ (if (microsecond d =? 0)%N then "" else "." ++ zero_pad 6 (microsecond d)).

Definition format_offset (off : option Z) : string :=
  match off with
  | None => ""
  | Some us =>
      let sign := if us <? 0 then "-" else "+" in
      let a := Z.to_N (Z.abs us) in
      let hh := (a / 3600000000)%N in
      let r := (a mod 3600000000)%N in
      let mm := (r / 60000000)%N in
      let ss := (r mod 60000000)%N in
      sign ++ zero_pad 2 hh ++ ":" ++ zero_pad 2 mm
      ++ (if (ss =? 0)%N then ""
          else ":" ++ zero_pad 2 (ss / 1000000)%N
               ++ (if (ss mod 1000000 =? 0)%N then ""
                   else "." ++ zero_pad 6 (ss mod 1000000)%N))
  end.

(** [str(d)], that is [d.isoformat(sep=' ')]. *)
Definition str (d : t) : string :=
  zero_pad 4 (year d) ++ "-" ++ zero_pad 2 (month d) ++ "-" ++ zero_pad 2 (day d)
  ++ " " ++ format_time d ++ format_offset (utcoffset d).

(** [str(x)] for a nullable [DateTimeField]. *)
Definition str_opt (x : option t) : string :=
  match x with
  | Some d => str d
  | None => "None"
  end.

End Datetime.

(** [str(b)] for [b : bytes], which is [repr(b)]. *)
Definition bytes_repr (b : string) : string :=
  let bs := list_ascii_of_string b in
  let has c := existsb (Ascii.eqb c) bs in
  let quote := if has "'"%char && negb (has (ascii_of_nat 34)) then ascii_of_nat 34 else "'"%char in
  let esc (c : ascii) : string :=
    if Ascii.eqb c quote || Ascii.eqb c "\"%char then String "\" (String c "")
    else if Ascii.eqb c (ascii_of_nat 9) then "\t"
    else if Ascii.eqb c (ascii_of_nat 10) then "\n"
    else if Ascii.eqb c (ascii_of_nat 13) then "\r"
    else if (N_of_ascii c <? 32)%N || (127 <=? N_of_ascii c)%N
         then "\x" ++ Hashlib.hex_byte (Z.of_N (N_of_ascii c))
    else String c "" in
  "b" ++ String quote (concat "" (map esc bs)) ++ String quote "".

(* ===================================================================== *)
(** ** Models and managers *)
(* ===================================================================== *)

(** Rows carry the primary key and the fields the three operations read. *)

Module Logo.
Record t := { pk : Z; name : string; svg : string }.
End Logo.

Module Variable_.
Record t := { pk : Z; name : string; updated_at : option Datetime.t }.
End Variable_.

Module ChartSlugRedirect.
Record t := { pk : Z; slug : string; chart_id : Z }.
End ChartSlugRedirect.

(** [Model.objects.filter(...)]: the rows that satisfy the condition, in the
    order of the table. *)
Definition objects_filter {A} (cond : A -> bool) (table : list A) : list A :=
  filter cond table.

(** [Model.objects.get(...)]: the one row that satisfies the condition. *)
Definition objects_get {A} (m : model) (cond : A -> bool) (table : list A) : result A :=
  match objects_filter cond table with
  | [] => Raise (DoesNotExist m)
  | [row] => Ok row
  | _ :: _ :: _ => Raise (MultipleObjectsReturned m)
  end.

Definition mem_Z (x : Z) (l : list Z) : bool := existsb (Z.eqb x) l.
Definition mem_string (x : string) (l : list string) : bool := existsb (String.eqb x) l.

Definition json_of_option_string (x : option string) : json :=
  match x with Some s => JStr s | None => JNull end.

Definition json_of_option_bool (x : option bool) : json :=
  match x with Some b => JBool b | None => JNull end.

Module Chart.

(** [published] is [None] where the column holds NULL. *)
Record t := {
  pk : Z;
  name : string;
  config : string;
  updated_at : Datetime.t;
  origin_url : string;
  notes : string;
  slug : option string;
  published : option bool;
  starred : bool;
  type : option string
}.

(** What [find_with_redirects] returns: a chart, or [False]. *)
Inductive chart_or_False :=
| Found (chart : t)
| False_.

Section Methods.
Context {rt : Runtime}.

(** [owid_commit]: [str] of the bytes [git rev-parse HEAD] wrote to its
    standard output. *)
Definition owid_commit (git_stdout : string) : string :=
  bytes_repr git_stdout.

(** [[int(d['variableId']) for d in dims if 'variableId' in d]] *)
Fixpoint varids_of (dims : list json) : result (list Z) :=
  match dims with
  | [] => Ok []
  | d :: rest =>
      has <- py_contains "variableId" d ;;
      if has : bool then
        v <- py_getitem d "variableId" ;;
        n <- py_int v ;;
        ns <- varids_of rest ;;
        Ok (n :: ns)
      else varids_of rest
  end.

Definition make_cache_tag (git_stdout : string) (variables : list Variable_.t)
    (self : t) : result string :=
  let variable_cache_tag := Datetime.str (updated_at self) ++ " + " ++ owid_commit git_stdout in
  config <- loads (config self) ;;
  dims <- py_getitem config "chart-dimensions" ;;
  items <- py_iter dims ;;
  varids <- varids_of items ;;
  let vartimestamps :=
    objects_filter (fun v => mem_Z (Variable_.pk v) varids) variables in
  let updated_at_list := map (fun each => Datetime.str_opt (Variable_.updated_at each)) vartimestamps in
  let variable_cache_tag := variable_cache_tag ++ join " + " updated_at_list in
  Ok (Hashlib.md5_hexdigest (encode_utf8 variable_cache_tag)).

Definition get_config_with_url (logos : list Logo.t) (chart : t) : result json :=
  config <- loads (config chart) ;;
  config <- py_setitem config "id" (JInt (pk chart)) ;;
  config <- py_setitem config "title" (JStr (name chart)) ;;
  config <- py_setitem config "chart-type" (json_of_option_string (type chart)) ;;
  config <- py_setitem config "internalNotes" (JStr (notes chart)) ;;
  config <- py_setitem config "slug" (json_of_option_string (slug chart)) ;;
  config <- py_setitem config "data-entry-url" (JStr (origin_url chart)) ;;
  config <- py_setitem config "published" (json_of_option_bool (published chart)) ;;
  requested <- py_getitem config "logos" ;;
  names <- name_in_names requested ;;
  let logos :=
    map Logo.svg (objects_filter (fun each => mem_string (Logo.name each) names) logos) in
  config <- py_setitem config "logosSVG" (JList (map JStr logos)) ;;
  Ok config.

(** [Q(slug=slug)] *)
Definition slug_is (s : string) (c : t) : bool :=
  match slug c with
  | Some s' => String.eqb s s'
  | None => false
  end.

(** [Q(pk=intslug)]; comparing with [None] selects NULL keys, and no row has
    one. *)
Definition pk_is (intslug : option Z) (c : t) : bool :=
  match intslug with
  | Some n => pk c =? n
  | None => false
  end.

(** [published__isnull=False] *)
Definition published_notnull (c : t) : bool :=
  match published c with
  | Some _ => true
  | None => false
  end.

(** The first query of [find_with_redirects]. *)
Definition first_lookup (charts : list t) (slug : string) : result t :=
  let intslug := int_of_str slug in
  objects_get ChartModel
    (fun c => (slug_is slug c || pk_is intslug c) && published_notnull c) charts.

Definition find_with_redirects (charts : list t)
    (redirects : list ChartSlugRedirect.t) (slug : string) : result chart_or_False :=
  match first_lookup charts slug with
  | Ok chart => Ok (Found chart)
  | Raise (DoesNotExist ChartModel) =>
      match objects_get ChartSlugRedirectModel
              (fun r => String.eqb (ChartSlugRedirect.slug r) slug) redirects with
      | Raise (DoesNotExist ChartSlugRedirectModel) => Ok False_
      | Raise e => Raise e
      | Ok redirect =>
          chart <- objects_get ChartModel
                     (fun c => (pk c =? ChartSlugRedirect.chart_id redirect)
                               && published_notnull c) charts ;;
          Ok (Found chart)
      end
  | Raise e => Raise e
  end.

End Methods.
End Chart.

(* ===================================================================== *)
(** ** A runtime to evaluate with *)
(* ===================================================================== *)

(** The statements below hold for every [Runtime].  To run the operations on
    concrete rows this section provides one: a decoder for JSON text built
    from objects, arrays, escape-free strings, integers, [true], [false] and
    [null]; [int] on ASCII text; and a [name__in] that compares with text
    items, integers and booleans as [str] prints them, and never with
    [None]. *)

Module Reference.

Local Open Scope char_scope.
Local Open Scope list_scope.

Definition is_ws (c : ascii) : bool :=
  Ascii.eqb c " " || Ascii.eqb c "009" || Ascii.eqb c "010" || Ascii.eqb c "013".

Fixpoint skip_ws (s : list ascii) : list ascii :=
  match s with
  | c :: r => if is_ws c then skip_ws r else s
  | [] => []
  end.

Definition is_digit (c : ascii) : bool :=
  (48 <=? N_of_ascii c)%N && (N_of_ascii c <=? 57)%N.

Definition digit_value (c : ascii) : Z := Z.of_N (N_of_ascii c) - 48.

(** The characters of a string literal after its opening quote. *)
Fixpoint decode_string (s : list ascii) : option (string * list ascii) :=
  match s with
  | [] => None
  | c :: r =>
      if Ascii.eqb c "034" then Some (EmptyString, r)
      else if Ascii.eqb c "\" || (N_of_ascii c <? 32)%N then None
      else match decode_string r with
           | Some (str, r') => Some (String c str, r')
           | None => None
           end
  end.

Fixpoint decode_digits (acc : Z) (s : list ascii) : Z * list ascii :=
  match s with
  | c :: r => if is_digit c then decode_digits (10 * acc + digit_value c) r else (acc, s)
  | [] => (acc, [])
  end.

(** [0] or a digit string without a leading zero; a fraction or an exponent
    would make the number a float. *)
Definition decode_nat (s : list ascii) : option (Z * list ascii) :=
  match s with
  | c :: r =>
      if negb (is_digit c) then None
      else
        let '(n, r') := if Ascii.eqb c "0" then (0%Z, r) else decode_digits 0 s in
        match r' with
        | "." :: _ | "e" :: _ | "E" :: _ => None
        | _ => Some (n, r')
        end
  | [] => None
  end.

Fixpoint decode_value (fuel : nat) (s : list ascii) : option (json * list ascii) :=
  match fuel with
  | O => None
  | Datatypes.S fuel' =>
      match skip_ws s with
      | "{" :: r =>
          match skip_ws r with
          | "}" :: r' => Some (JDict [], r')
          | r' =>
              match decode_members fuel' r' with
              | Some (kvs, r'') =>
                  Some (JDict (fold_left (fun d kv => dict_set (fst kv) (snd kv) d) kvs []), r'')
              | None => None
              end
          end
      | "[" :: r =>
          match skip_ws r with
          | "]" :: r' => Some (JList [], r')
          | r' =>
              match decode_items fuel' r' with
              | Some (vs, r'') => Some (JList vs, r'')
              | None => None
              end
          end
      | "034" :: r =>
          match decode_string r with
          | Some (str, r') => Some (JStr str, r')
          | None => None
          end
      | "t" :: "r" :: "u" :: "e" :: r => Some (JBool true, r)
      | "f" :: "a" :: "l" :: "s" :: "e" :: r => Some (JBool false, r)
      | "n" :: "u" :: "l" :: "l" :: r => Some (JNull, r)
      | "-" :: r =>
          match decode_nat r with
          | Some (n, r') => Some (JInt (- n), r')
          | None => None
          end
      | r =>
          match decode_nat r with
          | Some (n, r') => Some (JInt n, r')
          | None => None
          end
      end
  end
with decode_items (fuel : nat) (s : list ascii) : option (list json * list ascii) :=
  match fuel with
  | O => None
  | Datatypes.S fuel' =>
      match decode_value fuel' s with
      | Some (v, r) =>
          match skip_ws r with
          | "," :: r' =>
              match decode_items fuel' r' with
              | Some (vs, r'') => Some (v :: vs, r'')
              | None => None
              end
          | "]" :: r' => Some ([v], r')
          | _ => None
          end
      | None => None
      end
  end
with decode_members (fuel : nat) (s : list ascii) : option (list (string * json) * list ascii) :=
  match fuel with
  | O => None
  | Datatypes.S fuel' =>
      match skip_ws s with
      | "034" :: r =>
          match decode_string r with
          | Some (k, r1) =>
              match skip_ws r1 with
              | ":" :: r2 =>
                  match decode_value fuel' r2 with
                  | Some (v, r3) =>
                      match skip_ws r3 with
                      | "," :: r4 =>
                          match decode_members fuel' r4 with
                          | Some (kvs, r5) => Some ((k, v) :: kvs, r5)
                          | None => None
                          end
                      | "}" :: r4 => Some ([(k, v)], r4)
                      | _ => None
                      end
                  | None => None
                  end
              | _ => None
              end
          | None => None
          end
      | _ => None
      end
  end.

Definition decode (s : string) : option json :=
  let cs := list_ascii_of_string s in
  match decode_value (Datatypes.S (List.length cs)) cs with
  | Some (v, r) => match skip_ws r with [] => Some v | _ :: _ => None end
  | None => None
  end.

(** Characters [int] strips from both ends. *)
Definition is_space (c : ascii) : bool :=
  let n := N_of_ascii c in
  (n =? 32)%N || ((9 <=? n)%N && (n <=? 13)%N) || ((28 <=? n)%N && (n <=? 31)%N).

Fixpoint lstrip (s : list ascii) : list ascii :=
  match s with
  | c :: r => if is_space c then lstrip r else s
  | [] => []
  end.

Definition strip (s : list ascii) : list ascii := rev (lstrip (rev (lstrip s))).

(** Decimal digits, single underscores allowed between digits. *)
Fixpoint int_digits (acc : Z) (after_digit : bool) (s : list ascii) : option Z :=
  match s with
  | [] => if after_digit then Some acc else None
  | c :: r =>
      if is_digit c then int_digits (10 * acc + digit_value c) true r
      else if Ascii.eqb c "_" && after_digit then
        match r with
        | [] => None
        | _ :: _ => int_digits acc false r
        end
      else None
  end.

Definition parse_int (s : string) : option Z :=
  match strip (list_ascii_of_string s) with
  | "-" :: r => option_map Z.opp (int_digits 0 false r)
  | "+" :: r => int_digits 0 false r
  | r => int_digits 0 false r
  end.

Definition str_of_Z (n : Z) : string := NilZero.string_of_int (Z.to_int n).

(** The names one item of the right-hand side can match. *)
Definition name_of_item (x : json) : list string :=
  match x with
  | JStr s => [s]
  | JInt n => [str_of_Z n]
  | JBool b => [if b then "True"%string else "False"%string]
  | JNull | JFloat _ | JList _ | JDict _ => []
  end.

Definition names_of_rhs (rhs : json) : result (list string) :=
  match rhs with
  | JNull => Raise ValueError
  | JBool _ | JInt _ | JFloat _ => Raise TypeError
  | _ => items <- py_iter rhs ;; Ok (flat_map name_of_item items)
  end.

#[export] Instance runtime : Runtime.
Proof.
  refine (Build_Runtime decode parse_int names_of_rhs _).
  intros names. unfold names_of_rhs; simpl; f_equal.
  induction names as [|n ns IH]; simpl; [reflexivity | now rewrite IH].
Defined.

(** JSON text is written with ['] for the double quote. *)
Definition dq (s : string) : string :=
  string_of_list_ascii
    (map (fun c => if Ascii.eqb c "'" then "034" else c) (list_ascii_of_string s)).

End Reference.

(* ===================================================================== *)
(** ** Vocabulary of the statements *)
(* ===================================================================== *)

Definition is_dict (x : json) : Prop := exists d, x = JDict d.

(** The [variableId] values of the dimension records that have one. *)
Fixpoint variableId_values (dims : list json) : list json :=
  match dims with
  | [] => []
  | JDict d :: rest =>
      match dict_get "variableId" d with
      | Some v => v :: variableId_values rest
      | None => variableId_values rest
      end
  | _ :: rest => variableId_values rest
  end.

(** The stored object after the seven assignments of [get_config_with_url]. *)
Definition with_chart_fields (chart : Chart.t) (d : dict) : dict :=
  dict_set "published" (json_of_option_bool (Chart.published chart))
    (dict_set "data-entry-url" (JStr (Chart.origin_url chart))
       (dict_set "slug" (json_of_option_string (Chart.slug chart))
          (dict_set "internalNotes" (JStr (Chart.notes chart))
             (dict_set "chart-type" (json_of_option_string (Chart.type chart))
                (dict_set "title" (JStr (Chart.name chart))
                   (dict_set "id" (JInt (Chart.pk chart)) d)))))).

(** The text [make_cache_tag] hashes: the chart's timestamp, [" + "], the
    output of [owid_commit], then the variables' timestamps joined by
    [" + "]. *)
Definition cache_tag_text (chart_updated_at commit : string)
    (variables_updated_at : list string) : string :=
  (chart_updated_at ++ " + " ++ commit) ++ join " + " variables_updated_at.

(** The tag [make_cache_tag] returns for given variable ids. *)
Definition tag_for (git_stdout : string) (variables : list Variable_.t)
    (self : Chart.t) (varids : list Z) : string :=
  Hashlib.md5_hexdigest (encode_utf8
    (cache_tag_text
       (Datetime.str (Chart.updated_at self))
       (Chart.owid_commit git_stdout)
       (map (fun each => Datetime.str_opt (Variable_.updated_at each))
            (filter (fun v => mem_Z (Variable_.pk v) varids) variables)))).

(** The payloads of the logos a [name__in] query with these names returns. *)
Definition logos_svg (names : list string) (logos : list Logo.t) : list string :=
  map Logo.svg (objects_filter (fun each => mem_string (Logo.name each) names) logos).

(** The reading of [logosSVG] that follows the requested names: for each
    requested name in turn, the payload of the logo of that name if there is
    one. *)
Definition logos_svg_in_requested_order (names : list string) (logos : list Logo.t)
  : list string :=
  flat_map (fun n =>
              match find (fun each => String.eqb (Logo.name each) n) logos with
              | Some l => [Logo.svg l]
              | None => []
              end) names.

(** A chart the first query of [find_with_redirects] selects for [ident]. *)
Definition first_lookup_match {rt : Runtime} (ident : string) (c : Chart.t) : Prop :=
  (Chart.slug c = Some ident \/ int_of_str ident = Some (Chart.pk c))
  /\ Chart.published c <> None.

(** Rows to evaluate on. *)
Module Fixtures.
Import Reference.

Definition noon : Datetime.t :=
  {| Datetime.year := 2017; Datetime.month := 6; Datetime.day := 1;
     Datetime.hour := 12; Datetime.minute := 0; Datetime.second := 0;
     Datetime.microsecond := 0; Datetime.utcoffset := None |}.

Definition new_year : Datetime.t :=
  {| Datetime.year := 2017; Datetime.month := 1; Datetime.day := 1;
     Datetime.hour := 0; Datetime.minute := 0; Datetime.second := 0;
     Datetime.microsecond := 0; Datetime.utcoffset := None |}.

Definition chart (pk : Z) (slug : option string) (published : option bool)
    (config : string) : Chart.t :=
  {| Chart.pk := pk; Chart.name := "Life expectancy"; Chart.config := config;
     Chart.updated_at := noon; Chart.origin_url := "/grapher/admin";
     Chart.notes := "checked"; Chart.slug := slug; Chart.published := published;
     Chart.starred := false; Chart.type := Some "LineChart" |}.

Definition git_stdout : string := String.append "abc123" (String "010" "").

Definition variables : list Variable_.t :=
  [ {| Variable_.pk := 7; Variable_.name := "gdp"; Variable_.updated_at := Some new_year |};
    {| Variable_.pk := 9; Variable_.name := "pop"; Variable_.updated_at := Some noon |};
    {| Variable_.pk := 12; Variable_.name := "co2"; Variable_.updated_at := None |} ].

Definition logos : list Logo.t :=
  [ {| Logo.pk := 1; Logo.name := "OWD"; Logo.svg := "<svg>owd</svg>" |};
    {| Logo.pk := 2; Logo.name := "partner"; Logo.svg := "<svg>partner</svg>" |} ].

Definition charts : list Chart.t :=
  [ chart 42 (Some "life-expectancy") (Some true) (dq "{'logos': []}");
    chart 43 (Some "draft") None (dq "{'logos': []}") ].

Definition redirects : list ChartSlugRedirect.t :=
  [ {| ChartSlugRedirect.pk := 1; ChartSlugRedirect.slug := "old-slug";
       ChartSlugRedirect.chart_id := 42 |};
    {| ChartSlugRedirect.pk := 2; ChartSlugRedirect.slug := "broken";
       ChartSlugRedirect.chart_id := 999 |} ].

(** A chart over variables 12 and 7, with one dimension of no variable. *)
Definition tagged_dims : list json :=
  [ JDict [("variableId", JInt 12)]; JDict [("variableId", JStr "7")];
    JDict [("property", JStr "y")] ].

Definition tagged_dict : dict :=
  [ ("chart-dimensions", JList tagged_dims);
    ("logos", JList [JStr "partner"; JStr "OWD"]) ].

Definition tagged_chart : Chart.t :=
  chart 42 (Some "life-expectancy") (Some true)
    (dq "{'chart-dimensions': [{'variableId': 12}, {'variableId': '7'}, {'property': 'y'}], 'logos': ['partner', 'OWD']}").

(** A chart whose dimensions name no variable. *)
Definition plain_dims : list json :=
  [ JDict [("property", JStr "x")]; JDict [] ].

Definition plain_chart : Chart.t :=
  chart 44 (Some "plain") (Some true)
    (dq "{'chart-dimensions': [{'property': 'x'}, {}], 'logos': []}").

(** A stored object with stale copies of the chart's fields. *)
Definition stale_chart : Chart.t :=
  chart 42 (Some "life-expectancy") (Some true)
    (dq "{'id': 999, 'title': 'stale', 'published': false, 'logos': ['OWD'], 'units': 'years'}").

(** Stored objects without [chart-dimensions] and without [logos]. *)
Definition bare_dict : dict := [ ("units", JStr "years") ].

Definition bare_chart : Chart.t :=
  chart 45 (Some "bare") (Some true) (dq "{'units': 'years'}").

(** A dimension whose [variableId] is [null]. *)
Definition null_id_dims : list json :=
  [ JDict [("variableId", JInt 7)]; JDict [("variableId", JNull)] ].

Definition null_id_chart : Chart.t :=
  chart 46 (Some "null-id") (Some true)
    (dq "{'chart-dimensions': [{'variableId': 7}, {'variableId': null}], 'logos': []}").

(** A stored config that is not JSON. *)
Definition broken_chart : Chart.t :=
  chart 47 (Some "broken-config") (Some true) (dq "{'logos': [}").

End Fixtures.

(* ===================================================================== *)
(** ** Vocabulary of the further statements *)
(* ===================================================================== *)

(** How [str(b)] writes one byte between the quotes [quote]. *)
Definition escape_byte (quote c : ascii) : string :=
  if Ascii.eqb c quote || Ascii.eqb c "\"%char then String "\" (String c "")
  else if Ascii.eqb c (ascii_of_nat 9) then "\t"
  else if Ascii.eqb c (ascii_of_nat 10) then "\n"
  else if Ascii.eqb c (ascii_of_nat 13) then "\r"
  else if (N_of_ascii c <? 32)%N || (127 <=? N_of_ascii c)%N
       then "\x" ++ Hashlib.hex_byte (Z.of_N (N_of_ascii c))
  else String c "".

(** A printable ASCII byte other than the single quote and the backslash. *)
Definition plain_byte (c : ascii) : bool :=
  (32 <=? N_of_ascii c)%N && (N_of_ascii c <? 127)%N
  && negb (Ascii.eqb c "'"%char) && negb (Ascii.eqb c "\"%char).

(** One of [0123456789abcdef]. *)
Definition is_lower_hex (c : ascii) : bool :=
  let n := N_of_ascii c in
  ((48 <=? n)%N && (n <=? 57)%N) || ((97 <=? n)%N && (n <=? 102)%N).

(** The items of [chart-dimensions] the comprehension of [make_cache_tag]
    gets past: a dict without [variableId] or with one that [int] accepts, a
    list that does not hold the text [variableId], a text that does not
    contain it. *)
Definition passes_comprehension {rt : Runtime} (item : json) : Prop :=
  match item with
  | JDict d =>
      match dict_get "variableId" d with
      | None => True
      | Some v => exists n, py_int v = Ok n
      end
  | JList l => ~ In (JStr "variableId") l
  | JStr s => contains "variableId" s = false
  | JNull | JBool _ | JInt _ | JFloat _ => False
  end.

(** The keys [get_config_with_url] assigns. *)
Definition assigned_keys : list string :=
  [ "id"; "title"; "chart-type"; "internalNotes"; "slug"; "data-entry-url";
    "published"; "logosSVG" ].

Module MoreFixtures.
Import Reference Fixtures.

(** Chart 50 carries the slug ["42"], the id of another chart. *)
Definition ambiguous_charts : list Chart.t :=
  [ chart 42 (Some "life-expectancy") (Some true) (dq "{'logos': []}");
    chart 50 (Some "42") (Some false) (dq "{'logos': []}") ].

(** The dimensions of [tagged_chart] in another order, one repeated, and one
    for a variable that is in no table. *)
Definition shuffled_dims : list json :=
  [ JDict [("variableId", JInt 7)]; JDict [("variableId", JInt 1000)];
    JDict [("variableId", JInt 12)]; JDict [("variableId", JStr "7")] ].

Definition shuffled_chart : Chart.t :=
  chart 42 (Some "life-expectancy") (Some true)
    (dq "{'chart-dimensions': [{'variableId': 7}, {'variableId': 1000}, {'variableId': 12}, {'variableId': '7'}], 'logos': ['OWD', 'OWD', 'partner']}").

(** Stored configs that are JSON but not objects, or whose
    [chart-dimensions] cannot be iterated. *)
Definition list_chart : Chart.t :=
  chart 48 (Some "list") (Some true) (dq "[{'logos': []}]").

Definition null_dims_chart : Chart.t :=
  chart 49 (Some "null-dims") (Some true) (dq "{'chart-dimensions': null, 'logos': []}").

(** Dimensions that are not all records. *)
Definition mixed_dims : list json :=
  [ JStr "axis"; JList [JStr "x"; JInt 1]; JDict [("variableId", JBool true)]; JDict [] ].

Definition mixed_chart : Chart.t :=
  chart 51 (Some "mixed") (Some true)
    (dq "{'chart-dimensions': ['axis', ['x', 1], {'variableId': true}, {}], 'logos': []}").

End MoreFixtures.

(* ===================================================================== *)
(** ** hashlib.md5: test vectors and digest size *)
(* ===================================================================== *)

Example md5_empty :
  Hashlib.md5_hexdigest (encode_utf8 "") = "d41d8cd98f00b204e9800998ecf8427e".
Proof. vm_compute. reflexivity. Qed.

Example md5_abc :
  Hashlib.md5_hexdigest (encode_utf8 "abc") = "900150983cd24fb0d6963f7d28e17f72".
Proof. vm_compute. reflexivity. Qed.

Example md5_two_blocks :
  Hashlib.md5_hexdigest (encode_utf8
    "12345678901234567890123456789012345678901234567890123456789012345678901234567890")
  = "57edf4a22be3c955ac49da2e2107b67a".
Proof. vm_compute. reflexivity. Qed.

Lemma le_bytes_length n x : List.length (Hashlib.le_bytes n x) = n.
Proof. revert x; induction n as [|n IH]; intros x; simpl; [reflexivity | now rewrite IH]. Qed.

(** A digest is 16 bytes, that is 128 bits. *)
Lemma md5_length msg : List.length (Hashlib.md5 msg) = 16%nat.
Proof.
  unfold Hashlib.md5, Hashlib.digest_of_state.
  rewrite !length_app, !le_bytes_length. reflexivity.
Qed.

Lemma hex_length bs : String.length (Hashlib.hex bs) = (2 * List.length bs)%nat.
Proof.
  induction bs as [|b bs IH]; simpl; [reflexivity|].
  rewrite IH. lia.
Qed.

(** [hexdigest] is 32 characters long. *)
Lemma md5_hexdigest_length msg : String.length (Hashlib.md5_hexdigest msg) = 32%nat.
Proof. unfold Hashlib.md5_hexdigest. now rewrite hex_length, md5_length. Qed.

(* ===================================================================== *)
(** ** Dictionaries *)
(* ===================================================================== *)

Lemma dict_get_set_eq k v d : dict_get k (dict_set k v d) = Some v.
Proof.
  induction d as [|[k' v'] d IH]; simpl.
  - now rewrite String.eqb_refl.
  - destruct (String.eqb k k') eqn:E; simpl.
    + now rewrite String.eqb_refl.
    + now rewrite E.
Qed.

Lemma dict_get_set_ne k k' v d :
  k <> k' -> dict_get k' (dict_set k v d) = dict_get k' d.
Proof.
  intros Hne. induction d as [|[k0 v0] d IH]; simpl.
  - destruct (String.eqb k' k) eqn:E; [|reflexivity].
    apply String.eqb_eq in E. congruence.
  - destruct (String.eqb k k0) eqn:E; simpl.
    + apply String.eqb_eq in E. subst k0.
      destruct (String.eqb k' k) eqn:E'; [|reflexivity].
      apply String.eqb_eq in E'. congruence.
    + now rewrite IH.
Qed.

(* ===================================================================== *)
(** ** get_config_with_url *)
(* ===================================================================== *)

Section GetConfig.
Context {rt : Runtime}.

(** On a stored object the seven assignments go through; what remains is the
    lookup of [logos] and the query. *)
Lemma get_config_with_url_dict logos chart d :
  json_loads (Chart.config chart) = Some (JDict d) ->
  Chart.get_config_with_url logos chart =
    (requested <- py_getitem (JDict (with_chart_fields chart d)) "logos" ;;
     names <- name_in_names requested ;;
     Ok (JDict (dict_set "logosSVG" (JList (map JStr (logos_svg names logos)))
                  (with_chart_fields chart d)))).
Proof.
  intros Hload. unfold Chart.get_config_with_url, loads. rewrite Hload.
  cbn [bind py_setitem]. fold (with_chart_fields chart d).
  destruct (py_getitem _ "logos") as [requested|e]; cbn [bind]; [|reflexivity].
  destruct (name_in_names requested) as [names|e]; reflexivity.
Qed.

(** Text that decodes to anything but an object makes the first assignment
    raise. *)
Lemma get_config_with_url_returns logos chart cfg :
  Chart.get_config_with_url logos chart = Ok cfg ->
  exists d requested names,
    json_loads (Chart.config chart) = Some (JDict d)
    /\ dict_get "logos" (with_chart_fields chart d) = Some requested
    /\ name_in_names requested = Ok names
    /\ cfg = JDict (dict_set "logosSVG" (JList (map JStr (logos_svg names logos)))
                      (with_chart_fields chart d)).
Proof.
  intros H.
  destruct (json_loads (Chart.config chart)) as [v|] eqn:Hload.
  - destruct v as [| | | | |l|d];
      try (unfold Chart.get_config_with_url, loads in H; rewrite Hload in H;
           cbn in H; discriminate).
    rewrite (get_config_with_url_dict _ _ _ Hload) in H.
    cbn [py_getitem] in H.
    destruct (dict_get "logos" (with_chart_fields chart d)) as [requested|] eqn:Hl;
      cbn [bind] in H; [|discriminate].
    destruct (name_in_names requested) as [names|e] eqn:Hn; cbn [bind] in H;
      [|discriminate].
    exists d, requested, names. repeat split; try assumption. congruence.
  - unfold Chart.get_config_with_url, loads in H. rewrite Hload in H.
    cbn in H. discriminate.
Qed.

Ltac dict_lookup :=
  repeat (first [ apply dict_get_set_eq
                | rewrite dict_get_set_ne by discriminate ]).

(** C2: whatever the stored object holds, the object [get_config_with_url]
    returns maps [id], [title], [chart-type], [internalNotes], [slug],
    [data-entry-url] and [published] to the chart's primary key, name, type,
    notes, slug, origin_url and published fields. *)
Theorem C2_config_carries_chart_fields logos chart cfg :
  Chart.get_config_with_url logos chart = Ok cfg ->
  exists stored out,
    json_loads (Chart.config chart) = Some (JDict stored)
    /\ cfg = JDict out
    /\ dict_get "id" out = Some (JInt (Chart.pk chart))
    /\ dict_get "title" out = Some (JStr (Chart.name chart))
    /\ dict_get "chart-type" out = Some (json_of_option_string (Chart.type chart))
    /\ dict_get "internalNotes" out = Some (JStr (Chart.notes chart))
    /\ dict_get "slug" out = Some (json_of_option_string (Chart.slug chart))
    /\ dict_get "data-entry-url" out = Some (JStr (Chart.origin_url chart))
    /\ dict_get "published" out = Some (json_of_option_bool (Chart.published chart)).
Proof.
  intros H. apply get_config_with_url_returns in H.
  destruct H as (d & requested & names & Hload & _ & _ & ->).
  eexists d, _. split; [exact Hload|]. split; [reflexivity|].
  unfold with_chart_fields. repeat split; dict_lookup.
Qed.

Lemma logos_absent_after_assignments chart d :
  dict_get "logos" (with_chart_fields chart d) = dict_get "logos" d.
Proof. unfold with_chart_fields. now dict_lookup. Qed.

(** C7 (amended): on a stored object without a [logos] key the lookup
    [config['logos']] raises [KeyError] and nothing is returned. *)
Theorem C7_missing_logos_raises logos chart d :
  json_loads (Chart.config chart) = Some (JDict d) ->
  dict_get "logos" d = None ->
  Chart.get_config_with_url logos chart = Raise (KeyError "logos").
Proof.
  intros Hload Hnone. rewrite (get_config_with_url_dict _ _ _ Hload).
  cbn [py_getitem]. rewrite logos_absent_after_assignments, Hnone. reflexivity.
Qed.

(** C9 (amended): with a list of names under [logos], [logosSVG] holds the
    payloads of the Logo rows whose name is among the requested names, one
    per such row and in the order of the table; a name without a row adds
    nothing. *)
Theorem C9_logosSVG_in_table_order logos chart d names :
  json_loads (Chart.config chart) = Some (JDict d) ->
  dict_get "logos" d = Some (JList (map JStr names)) ->
  exists out,
    Chart.get_config_with_url logos chart = Ok (JDict out)
    /\ dict_get "logosSVG" out =
         Some (JList (map JStr
           (map Logo.svg
              (filter (fun each => mem_string (Logo.name each) names) logos)))).
Proof.
  intros Hload Hlogos. rewrite (get_config_with_url_dict _ _ _ Hload).
  cbn [py_getitem]. rewrite logos_absent_after_assignments, Hlogos.
  cbn [bind]. rewrite name_in_names_text. cbn [bind].
  eexists. split; [reflexivity|]. apply dict_get_set_eq.
Qed.

End GetConfig.

(* ===================================================================== *)
(** ** make_cache_tag *)
(* ===================================================================== *)

Section MakeCacheTag.
Context {rt : Runtime}.

(** Once the dimensions are at hand the outcome is that of collecting the
    variable ids. *)
Lemma make_cache_tag_dims git_stdout variables self d dims :
  json_loads (Chart.config self) = Some (JDict d) ->
  dict_get "chart-dimensions" d = Some (JList dims) ->
  Chart.make_cache_tag git_stdout variables self =
    (varids <- Chart.varids_of dims ;; Ok (tag_for git_stdout variables self varids)).
Proof.
  intros Hload Hdims. unfold Chart.make_cache_tag, loads. rewrite Hload.
  cbn [bind py_getitem]. rewrite Hdims. cbn [bind py_iter].
  destruct (Chart.varids_of dims); reflexivity.
Qed.

(** On dimension records, the ids collected are the integers of the
    [variableId] values, in order. *)
Lemma varids_of_records dims ids :
  Forall is_dict dims ->
  Forall2 (fun v n => py_int v = Ok n) (variableId_values dims) ids ->
  Chart.varids_of dims = Ok ids.
Proof.
  intros Hd. revert ids. induction Hd as [|x dims [d ->] _ IH]; intros ids H.
  - inversion H. reflexivity.
  - cbn [Chart.varids_of variableId_values py_contains py_getitem bind] in *.
    destruct (dict_get "variableId" d) as [v|] eqn:E.
    + inversion H as [|? n ? ns Hv Hrest]; subst.
      cbn [bind]. rewrite Hv. cbn [bind]. now rewrite (IH _ Hrest).
    + now apply IH.
Qed.

Lemma varids_of_records_inv dims ids :
  Forall is_dict dims ->
  Chart.varids_of dims = Ok ids ->
  Forall2 (fun v n => py_int v = Ok n) (variableId_values dims) ids.
Proof.
  intros Hd. revert ids. induction Hd as [|x dims [d ->] _ IH]; intros ids H.
  - cbn in H. injection H as <-. constructor.
  - cbn [Chart.varids_of variableId_values py_contains py_getitem bind] in *.
    destruct (dict_get "variableId" d) as [v|] eqn:E.
    + cbn [bind] in H.
      destruct (py_int v) as [n|e] eqn:Hv; cbn [bind] in H; [|discriminate].
      destruct (Chart.varids_of dims) as [ns|e] eqn:Hns; cbn [bind] in H; [|discriminate].
      injection H as <-. constructor; [exact Hv | now apply IH].
    + now apply IH.
Qed.

(** A record whose [variableId] does not convert makes the collection
    raise, wherever it stands among the items. *)
Lemma varids_of_raises dims d v e :
  In (JDict d) dims ->
  dict_get "variableId" d = Some v ->
  py_int v = Raise e ->
  exists e', Chart.varids_of dims = Raise e'.
Proof.
  intros Hin Hv He. induction dims as [|x dims IH]; [contradiction|].
  cbn [Chart.varids_of].
  destruct Hin as [-> | Hin].
  - cbn [py_contains py_getitem bind]. rewrite Hv. cbn [bind]. rewrite He.
    cbn [bind]. now exists e.
  - destruct (IH Hin) as [e' IH'].
    destruct (py_contains "variableId" x) as [[|]|e0]; cbn [bind].
    + destruct (py_getitem x "variableId") as [w|e1]; cbn [bind]; [|now eexists].
      destruct (py_int w) as [n|e2]; cbn [bind]; [|now eexists].
      rewrite IH'. cbn [bind]. now eexists.
    + now exists e'.
    + now eexists.
Qed.

(** C6: when the stored config is not JSON, [get_config_with_url] and
    [make_cache_tag] both raise the decoder's error and return nothing. *)
Theorem C6_malformed_config_raises git_stdout variables logos chart :
  json_loads (Chart.config chart) = None ->
  Chart.get_config_with_url logos chart = Raise JSONDecodeError
  /\ Chart.make_cache_tag git_stdout variables chart = Raise JSONDecodeError.
Proof.
  intros Hload. unfold Chart.get_config_with_url, Chart.make_cache_tag, loads.
  rewrite Hload. split; reflexivity.
Qed.

(** C1 (amended): when the stored config is an object whose
    [chart-dimensions] is a list of records and every [variableId] present
    converts to an integer, [make_cache_tag] returns the 32-character hex
    MD5 digest of the chart's timestamp, [" + "], the build identifier and
    the timestamps of the retrieved variables in table order joined by
    [" + "]; two computations that agree on the three ingredients return the
    same tag. *)
Theorem C1_cache_tag_is_md5_of_timestamps git_stdout variables self d dims ids :
  json_loads (Chart.config self) = Some (JDict d) ->
  dict_get "chart-dimensions" d = Some (JList dims) ->
  Forall is_dict dims ->
  Forall2 (fun v n => py_int v = Ok n) (variableId_values dims) ids ->
  let retrieved := filter (fun v => mem_Z (Variable_.pk v) ids) variables in
  let timestamps := map (fun each => Datetime.str_opt (Variable_.updated_at each)) retrieved in
  let tag := Hashlib.md5_hexdigest (encode_utf8
               (cache_tag_text (Datetime.str (Chart.updated_at self))
                  (Chart.owid_commit git_stdout) timestamps)) in
  Chart.make_cache_tag git_stdout variables self = Ok tag
  /\ String.length tag = 32%nat
  /\ forall git_stdout' variables' self' d' dims' ids',
       json_loads (Chart.config self') = Some (JDict d') ->
       dict_get "chart-dimensions" d' = Some (JList dims') ->
       Forall is_dict dims' ->
       Forall2 (fun v n => py_int v = Ok n) (variableId_values dims') ids' ->
       Datetime.str (Chart.updated_at self') = Datetime.str (Chart.updated_at self) ->
       Chart.owid_commit git_stdout' = Chart.owid_commit git_stdout ->
       map (fun each => Datetime.str_opt (Variable_.updated_at each))
           (filter (fun v => mem_Z (Variable_.pk v) ids') variables') = timestamps ->
       Chart.make_cache_tag git_stdout' variables' self' = Ok tag.
Proof.
  intros Hload Hdims Hrec Hids retrieved timestamps tag.
  split; [|split].
  - rewrite (make_cache_tag_dims _ _ _ _ _ Hload Hdims).
    rewrite (varids_of_records _ _ Hrec Hids). reflexivity.
  - apply md5_hexdigest_length.
  - intros g' vs' c' d' dims' ids' Hload' Hdims' Hrec' Hids' Hts Hcommit Hvts.
    rewrite (make_cache_tag_dims _ _ _ _ _ Hload' Hdims').
    rewrite (varids_of_records _ _ Hrec' Hids'). cbn [bind].
    unfold tag_for. rewrite Hts, Hcommit, Hvts. reflexivity.
Qed.

(** C8 (amended): when every dimension record lacks [variableId], the tag is
    the digest of the chart's timestamp, [" + "] and the build identifier,
    with no variable timestamp; when the stored object has no
    [chart-dimensions] key, [config['chart-dimensions']] raises [KeyError]. *)
Theorem C8_no_variable_ids git_stdout variables self d :
  json_loads (Chart.config self) = Some (JDict d) ->
  (forall dims,
     dict_get "chart-dimensions" d = Some (JList dims) ->
     Forall (fun x => exists r, x = JDict r /\ dict_get "variableId" r = None) dims ->
     Chart.make_cache_tag git_stdout variables self =
       Ok (Hashlib.md5_hexdigest (encode_utf8
             (cache_tag_text (Datetime.str (Chart.updated_at self))
                (Chart.owid_commit git_stdout) []))))
  /\ (dict_get "chart-dimensions" d = None ->
      Chart.make_cache_tag git_stdout variables self = Raise (KeyError "chart-dimensions")).
Proof.
  intros Hload. split.
  - intros dims Hdims Hnone.
    rewrite (make_cache_tag_dims _ _ _ _ _ Hload Hdims).
    assert (Hv : Chart.varids_of dims = Ok []).
    { clear Hdims. induction Hnone as [|x dims (r & -> & Hr) _ IH]; [reflexivity|].
      cbn [Chart.varids_of py_contains bind]. rewrite Hr. exact IH. }
    rewrite Hv. cbn [bind]. unfold tag_for.
    replace (filter _ variables) with (@nil Variable_.t); [reflexivity|].
    symmetry. induction variables as [|v vs IH]; [reflexivity | exact IH].
  - intros Hnone. unfold Chart.make_cache_tag, loads. rewrite Hload.
    cbn [bind py_getitem]. rewrite Hnone. reflexivity.
Qed.

(** C10: [int] is applied to every [variableId] present.  A record whose
    [variableId] does not convert makes [make_cache_tag] raise; over
    dimension records the call returns exactly when every [variableId]
    present converts, and then a record without the key adds no id. *)
Theorem C10_variable_ids_are_coerced git_stdout variables self d dims :
  json_loads (Chart.config self) = Some (JDict d) ->
  dict_get "chart-dimensions" d = Some (JList dims) ->
  (forall r v e,
     In (JDict r) dims -> dict_get "variableId" r = Some v -> py_int v = Raise e ->
     exists e', Chart.make_cache_tag git_stdout variables self = Raise e')
  /\ (Forall is_dict dims ->
      forall tag,
        Chart.make_cache_tag git_stdout variables self = Ok tag <->
        exists ids,
          Forall2 (fun v n => py_int v = Ok n) (variableId_values dims) ids
          /\ tag = tag_for git_stdout variables self ids).
Proof.
  intros Hload Hdims. rewrite (make_cache_tag_dims _ _ _ _ _ Hload Hdims). split.
  - intros r v e Hin Hv He.
    destruct (varids_of_raises _ _ _ _ Hin Hv He) as [e' ->]. now exists e'.
  - intros Hrec tag. split.
    + destruct (Chart.varids_of dims) as [ids|e] eqn:Hids; cbn [bind]; [|discriminate].
      intros [= <-]. exists ids. split; [|reflexivity].
      now apply varids_of_records_inv.
    + intros (ids & Hids & ->). now rewrite (varids_of_records _ _ Hrec Hids).
Qed.

End MakeCacheTag.

(* ===================================================================== *)
(** ** Managers *)
(* ===================================================================== *)

Lemma objects_get_none {A} m (cond : A -> bool) table :
  (forall x, In x table -> cond x = false) ->
  objects_get m cond table = Raise (DoesNotExist m).
Proof.
  intros H. unfold objects_get, objects_filter.
  replace (filter cond table) with (@nil A); [reflexivity|].
  symmetry. induction table as [|a t IH]; [reflexivity|].
  simpl. rewrite (H a (or_introl eq_refl)). apply IH.
  intros x Hx. apply H. now right.
Qed.

Lemma objects_get_returns {A} m (cond : A -> bool) table x :
  objects_get m cond table = Ok x -> In x table /\ cond x = true.
Proof.
  unfold objects_get, objects_filter. intros H.
  destruct (filter cond table) as [|y [|z rest]] eqn:E; try discriminate.
  injection H as ->. apply filter_In. rewrite E. now left.
Qed.

(** Under a unique key, a row that satisfies a condition which fixes the key
    is the only row [filter] keeps. *)
Lemma filter_unique {A B} (key : A -> B) (cond : A -> bool) table x :
  NoDup (map key table) ->
  In x table ->
  cond x = true ->
  (forall y, In y table -> cond y = true -> key y = key x) ->
  filter cond table = [x].
Proof.
  induction table as [|a t IH]; intros Hnd Hin Hx Hkey; [contradiction|].
  simpl in Hnd. inversion Hnd as [|? ? Hnotin Hnd']; subst.
  assert (Hempty : In x t -> cond a = false).
  { intros Hxt. destruct (cond a) eqn:Ea; [|reflexivity].
    exfalso. apply Hnotin. rewrite (Hkey a (or_introl eq_refl) Ea).
    now apply in_map. }
  destruct Hin as [-> | Hin].
  - simpl. rewrite Hx. f_equal.
    destruct (filter cond t) as [|y rest] eqn:E; [reflexivity|].
    exfalso. assert (Hy : In y (filter cond t)) by (rewrite E; now left).
    apply filter_In in Hy. destruct Hy as [Hyt Hy].
    apply Hnotin. rewrite <- (Hkey y (or_intror Hyt) Hy). now apply in_map.
  - simpl. rewrite (Hempty Hin). apply IH; try assumption.
    intros y Hy. apply Hkey. now right.
Qed.

Lemma objects_get_unique {A B} m (key : A -> B) (cond : A -> bool) table x :
  NoDup (map key table) ->
  In x table ->
  cond x = true ->
  (forall y, In y table -> cond y = true -> key y = key x) ->
  objects_get m cond table = Ok x.
Proof.
  intros Hnd Hin Hx Hkey. unfold objects_get, objects_filter.
  now rewrite (filter_unique key cond table x Hnd Hin Hx Hkey).
Qed.

(* ===================================================================== *)
(** ** find_with_redirects *)
(* ===================================================================== *)

Section FindWithRedirects.
Context {rt : Runtime}.

Lemma published_notnull_spec c :
  Chart.published_notnull c = true <-> Chart.published c <> None.
Proof.
  unfold Chart.published_notnull. destruct (Chart.published c); split;
    intros H; try reflexivity; try discriminate; try congruence.
Qed.

Lemma slug_is_spec ident c :
  Chart.slug_is ident c = true <-> Chart.slug c = Some ident.
Proof.
  unfold Chart.slug_is. destruct (Chart.slug c) as [s|]; split; intros H;
    try discriminate.
  - apply String.eqb_eq in H. now subst.
  - injection H as ->. apply String.eqb_refl.
Qed.

Lemma pk_is_spec intslug c :
  Chart.pk_is intslug c = true <-> intslug = Some (Chart.pk c).
Proof.
  unfold Chart.pk_is. destruct intslug as [n|]; split; intros H; try discriminate.
  - apply Z.eqb_eq in H. now subst.
  - injection H as ->. apply Z.eqb_refl.
Qed.

Lemma first_condition_spec ident c :
  (Chart.slug_is ident c || Chart.pk_is (int_of_str ident) c)
    && Chart.published_notnull c = true
  <-> first_lookup_match ident c.
Proof.
  unfold first_lookup_match.
  rewrite andb_true_iff, orb_true_iff, slug_is_spec, pk_is_spec, published_notnull_spec.
  reflexivity.
Qed.

Lemma first_lookup_misses charts ident :
  (forall c, In c charts -> ~ first_lookup_match ident c) ->
  Chart.first_lookup charts ident = Raise (DoesNotExist ChartModel).
Proof.
  intros H. apply objects_get_none. intros c Hc.
  apply not_true_is_false. rewrite first_condition_spec. now apply H.
Qed.

(** C4: a chart returned by the first query has a non-null [published] and
    either its slug is the identifier or its id is the integer the identifier
    parses to; when the identifier does not parse, only the slug can have
    matched.  That chart is what [find_with_redirects] returns. *)
Theorem C4_first_lookup_sound charts redirects ident c :
  Chart.first_lookup charts ident = Ok c ->
  In c charts
  /\ Chart.published c <> None
  /\ (Chart.slug c = Some ident \/ int_of_str ident = Some (Chart.pk c))
  /\ (int_of_str ident = None -> Chart.slug c = Some ident)
  /\ Chart.find_with_redirects charts redirects ident = Ok (Chart.Found c).
Proof.
  intros H. pose proof H as Hget. unfold Chart.first_lookup in Hget.
  apply objects_get_returns in Hget. destruct Hget as [Hin Hcond].
  apply first_condition_spec in Hcond. destruct Hcond as [Hm Hp].
  repeat split; try assumption.
  - intros Hnone. destruct Hm as [Hs | Hn]; [exact Hs | congruence].
  - unfold Chart.find_with_redirects. now rewrite H.
Qed.

(** C5: when no chart matches the first query, a redirect row for the
    identifier whose target is the id of a chart with a non-null [published]
    makes [find_with_redirects] return that chart, and the absence of a
    redirect row for the identifier makes it return [False].  Redirect slugs
    and chart ids are unique. *)
Theorem C5_redirect_followed_or_False charts redirects ident :
  (forall c, In c charts -> ~ first_lookup_match ident c) ->
  (forall r c,
     NoDup (map ChartSlugRedirect.slug redirects) ->
     NoDup (map Chart.pk charts) ->
     In r redirects -> ChartSlugRedirect.slug r = ident ->
     In c charts -> Chart.pk c = ChartSlugRedirect.chart_id r ->
     Chart.published c <> None ->
     Chart.find_with_redirects charts redirects ident = Ok (Chart.Found c))
  /\ ((forall r, In r redirects -> ChartSlugRedirect.slug r <> ident) ->
      Chart.find_with_redirects charts redirects ident = Ok Chart.False_).
Proof.
  intros Hmiss. unfold Chart.find_with_redirects.
  rewrite (first_lookup_misses _ _ Hmiss). split.
  - intros r c Hslugs Hpks Hr Hrs Hc Hpk Hpub.
    rewrite (objects_get_unique ChartSlugRedirectModel ChartSlugRedirect.slug _ _ r Hslugs Hr).
    + rewrite (objects_get_unique ChartModel Chart.pk _ _ c Hpks Hc); [reflexivity| |].
      * rewrite andb_true_iff, Z.eqb_eq, published_notnull_spec. now split.
      * intros y _ Hy. rewrite andb_true_iff, Z.eqb_eq in Hy. destruct Hy. congruence.
    + apply String.eqb_eq. exact Hrs.
    + intros y _ Hy. apply String.eqb_eq in Hy. congruence.
  - intros Hnone. rewrite objects_get_none; [reflexivity|].
    intros r Hr. apply String.eqb_neq. now apply Hnone.
Qed.

(** C3: when no chart matches the first query and the identifier has a
    redirect row whose target is not the id of any chart with a non-null
    [published], [find_with_redirects] raises [Chart.DoesNotExist] out of its
    handler, which is not the [False] it returns when there is no redirect
    row. *)
Theorem C3_dangling_redirect_raises charts redirects ident r :
  (forall c, In c charts -> ~ first_lookup_match ident c) ->
  NoDup (map ChartSlugRedirect.slug redirects) ->
  In r redirects -> ChartSlugRedirect.slug r = ident ->
  (forall c, In c charts -> Chart.pk c = ChartSlugRedirect.chart_id r ->
             Chart.published c = None) ->
  Chart.find_with_redirects charts redirects ident = Raise (DoesNotExist ChartModel)
  /\ Chart.find_with_redirects charts redirects ident <> Ok Chart.False_.
Proof.
  intros Hmiss Hslugs Hr Hrs Hdangling.
  assert (H : Chart.find_with_redirects charts redirects ident
              = Raise (DoesNotExist ChartModel)).
  { unfold Chart.find_with_redirects.
    rewrite (first_lookup_misses _ _ Hmiss).
    rewrite (objects_get_unique ChartSlugRedirectModel ChartSlugRedirect.slug _ _ r Hslugs Hr).
    - rewrite objects_get_none; [reflexivity|].
      intros c Hc. apply not_true_is_false.
      rewrite andb_true_iff, Z.eqb_eq, published_notnull_spec.
      intros [Hpk Hpub]. apply Hpub. now apply Hdangling.
    - apply String.eqb_eq. exact Hrs.
    - intros y _ Hy. apply String.eqb_eq in Hy. congruence. }
  split; [exact H | rewrite H; discriminate].
Qed.

(** The only way [Chart.DoesNotExist] leaves [find_with_redirects] is through
    the query for a redirect's target. *)
Lemma DoesNotExist_means_dangling charts redirects ident :
  Chart.find_with_redirects charts redirects ident = Raise (DoesNotExist ChartModel) ->
  exists r, In r redirects /\ ChartSlugRedirect.slug r = ident
            /\ forall c, In c charts -> Chart.pk c = ChartSlugRedirect.chart_id r ->
                         Chart.published c = None.
Proof.
  unfold Chart.find_with_redirects. intros H.
  destruct (Chart.first_lookup charts ident) as [c|e] eqn:E1; [discriminate|].
  assert (He : e = DoesNotExist ChartModel).
  { destruct e as [| | | | |m|m]; try discriminate.
    destruct m; [reflexivity | discriminate]. }
  subst e.
  destruct (objects_get ChartSlugRedirectModel _ redirects) as [r|e] eqn:E2.
  - apply objects_get_returns in E2. destruct E2 as [Hr Hs].
    apply String.eqb_eq in Hs. exists r. repeat split; try assumption.
    intros c Hc Hpk.
    destruct (objects_get ChartModel _ charts) as [c'|e] eqn:E3; [discriminate|].
    cbn [bind] in H. injection H as ->.
    unfold objects_get, objects_filter in E3.
    destruct (filter _ charts) as [|y [|z rest]] eqn:Ef; try discriminate.
    destruct (Chart.published c) eqn:Hp; [|reflexivity].
    exfalso. assert (Hinf : In c (filter
      (fun c0 => (Chart.pk c0 =? ChartSlugRedirect.chart_id r)
                 && Chart.published_notnull c0) charts)).
    { apply filter_In. split; [exact Hc|].
      rewrite andb_true_iff, Z.eqb_eq. split; [exact Hpk|].
      unfold Chart.published_notnull. now rewrite Hp. }
    rewrite Ef in Hinf. contradiction.
  - exfalso. unfold objects_get in E2.
    destruct (objects_filter _ redirects) as [|? [|? ?]]; try discriminate;
      injection E2 as <-; discriminate.
Qed.

End FindWithRedirects.

(* ===================================================================== *)
(** ** The operations on the fixture rows *)
(* ===================================================================== *)

Module Evaluated.
Import Reference Fixtures.

Example tagged_chart_text :
  cache_tag_text (Datetime.str (Chart.updated_at tagged_chart))
    (Chart.owid_commit git_stdout)
    (map (fun each => Datetime.str_opt (Variable_.updated_at each))
         (filter (fun v => mem_Z (Variable_.pk v) [12; 7]) variables))
  = "2017-06-01 12:00:00 + b'abc123\n'2017-01-01 00:00:00 + None".
Proof. vm_compute. reflexivity. Qed.

Example tagged_chart_tag :
  Chart.make_cache_tag git_stdout variables tagged_chart
  = Ok "36c8936ca7a9c55ad4181fa390976efb".
Proof. vm_compute. reflexivity. Qed.

Example plain_chart_tag :
  Chart.make_cache_tag git_stdout variables plain_chart
  = Ok "04d5ed76e680a2189e0589880d46ede7".
Proof. vm_compute. reflexivity. Qed.

Example find_by_id :
  Chart.find_with_redirects charts redirects "42"
  = Ok (Chart.Found (chart 42 (Some "life-expectancy") (Some true) (dq "{'logos': []}"))).
Proof. vm_compute. reflexivity. Qed.

Example find_unpublished : Chart.find_with_redirects charts redirects "draft" = Ok Chart.False_.
Proof. vm_compute. reflexivity. Qed.

Ltac no_first_match :=
  let c := fresh "c" in
  let H := fresh "H" in
  intros c H; simpl in H;
  repeat (destruct H as [<- | H]; [intros [[? | ?] ?]; vm_compute in *; congruence|]);
  contradiction.

Ltac decoded := vm_compute; reflexivity.

Lemma C1_witness :
  Chart.make_cache_tag git_stdout variables tagged_chart
  = Ok (tag_for git_stdout variables tagged_chart [12; 7])
  /\ String.length (tag_for git_stdout variables tagged_chart [12; 7]) = 32%nat.
Proof.
  assert (Hrec : Forall is_dict tagged_dims)
    by (repeat (constructor; [eexists; reflexivity|]); constructor).
  assert (Hids : Forall2 (fun v n => py_int v = Ok n)
                   (variableId_values tagged_dims) [12; 7])
    by (repeat constructor).
  assert (Hload : json_loads (Chart.config tagged_chart) = Some (JDict tagged_dict))
    by decoded.
  pose proof (C1_cache_tag_is_md5_of_timestamps git_stdout variables tagged_chart
                tagged_dict tagged_dims [12; 7] Hload eq_refl Hrec Hids) as H.
  cbv zeta in H. destruct H as (H1 & H2 & _). split; [exact H1 | exact H2].
Defined.

(** A [null] variable id: the config is JSON, and [int(None)] raises. *)
Lemma C1_counterexample :
  json_loads (Chart.config null_id_chart)
  = Some (JDict [("chart-dimensions", JList null_id_dims); ("logos", JList [])])
  /\ Chart.make_cache_tag git_stdout variables null_id_chart = Raise TypeError.
Proof. split; decoded. Qed.

Lemma C2_witness :
  exists stored out,
    Chart.get_config_with_url logos stale_chart = Ok (JDict out)
    /\ json_loads (Chart.config stale_chart) = Some (JDict stored)
    /\ dict_get "id" stored = Some (JInt 999)
    /\ dict_get "id" out = Some (JInt 42)
    /\ dict_get "title" stored = Some (JStr "stale")
    /\ dict_get "title" out = Some (JStr "Life expectancy")
    /\ dict_get "published" stored = Some (JBool false)
    /\ dict_get "published" out = Some (JBool true)
    /\ dict_get "units" out = Some (JStr "years").
Proof.
  destruct (Chart.get_config_with_url logos stale_chart) as [cfg|e] eqn:E;
    [|vm_compute in E; discriminate].
  destruct (C2_config_carries_chart_fields logos stale_chart cfg E)
    as (stored & out & Hload & -> & Hid & Htitle & _ & _ & _ & _ & Hpub).
  exists stored, out. split; [reflexivity|]. split; [exact Hload|].
  vm_compute in Hload. injection Hload as <-.
  split; [reflexivity|]. split; [exact Hid|]. split; [reflexivity|].
  split; [exact Htitle|]. split; [reflexivity|]. split; [exact Hpub|].
  vm_compute in E. injection E as <-. reflexivity.
Defined.

Lemma C3_witness :
  Chart.find_with_redirects charts redirects "broken" = Raise (DoesNotExist ChartModel)
  /\ Chart.find_with_redirects charts redirects "broken" <> Ok Chart.False_.
Proof.
  apply (C3_dangling_redirect_raises charts redirects "broken"
           {| ChartSlugRedirect.pk := 2; ChartSlugRedirect.slug := "broken";
              ChartSlugRedirect.chart_id := 999 |}).
  - no_first_match.
  - repeat constructor; simpl; intuition discriminate.
  - simpl. tauto.
  - reflexivity.
  - intros c [<- | [<- | []]] Hpk; simpl in Hpk; [discriminate | reflexivity].
Defined.

Lemma C4_witness :
  let c := chart 42 (Some "life-expectancy") (Some true) (dq "{'logos': []}") in
  In c charts
  /\ Chart.published c <> None
  /\ (Chart.slug c = Some "42" \/ int_of_str "42" = Some (Chart.pk c))
  /\ (int_of_str "42" = None -> Chart.slug c = Some "42")
  /\ Chart.find_with_redirects charts redirects "42" = Ok (Chart.Found c).
Proof.
  intros c. apply (C4_first_lookup_sound charts redirects "42" c). decoded.
Defined.

Lemma C5_witness :
  Chart.find_with_redirects charts redirects "old-slug"
  = Ok (Chart.Found (chart 42 (Some "life-expectancy") (Some true) (dq "{'logos': []}")))
  /\ Chart.find_with_redirects charts redirects "ghost" = Ok Chart.False_.
Proof.
  split.
  - apply (proj1 (C5_redirect_followed_or_False charts redirects "old-slug"
                    ltac:(no_first_match))
             {| ChartSlugRedirect.pk := 1; ChartSlugRedirect.slug := "old-slug";
                ChartSlugRedirect.chart_id := 42 |}).
    + repeat constructor; simpl; intuition discriminate.
    + repeat constructor; simpl; intuition discriminate.
    + simpl. tauto.
    + reflexivity.
    + simpl. tauto.
    + reflexivity.
    + discriminate.
  - apply (proj2 (C5_redirect_followed_or_False charts redirects "ghost"
                    ltac:(no_first_match))).
    intros r [<- | [<- | []]]; discriminate.
Defined.

Lemma C6_witness :
  Chart.get_config_with_url logos broken_chart = Raise JSONDecodeError
  /\ Chart.make_cache_tag git_stdout variables broken_chart = Raise JSONDecodeError.
Proof.
  apply (C6_malformed_config_raises git_stdout variables logos broken_chart). decoded.
Defined.

Lemma C7_witness :
  Chart.get_config_with_url logos bare_chart = Raise (KeyError "logos").
Proof.
  apply (C7_missing_logos_raises logos bare_chart bare_dict); decoded.
Defined.

(** The config is a JSON object without [logos]; the call does not return. *)
Lemma C7_counterexample :
  json_loads (Chart.config bare_chart) = Some (JDict bare_dict)
  /\ dict_get "logos" bare_dict = None
  /\ is_ok (Chart.get_config_with_url logos bare_chart) = false.
Proof. repeat split; decoded. Qed.

Lemma C8_witness :
  Chart.make_cache_tag git_stdout variables plain_chart
  = Ok (Hashlib.md5_hexdigest (encode_utf8
          (cache_tag_text (Datetime.str (Chart.updated_at plain_chart))
             (Chart.owid_commit git_stdout) [])))
  /\ Chart.make_cache_tag git_stdout variables bare_chart
     = Raise (KeyError "chart-dimensions").
Proof.
  assert (Hplain : json_loads (Chart.config plain_chart)
                   = Some (JDict [("chart-dimensions", JList plain_dims); ("logos", JList [])]))
    by decoded.
  assert (Hbare : json_loads (Chart.config bare_chart) = Some (JDict bare_dict))
    by decoded.
  split.
  - apply (proj1 (C8_no_variable_ids git_stdout variables plain_chart _ Hplain) plain_dims).
    + reflexivity.
    + repeat (constructor; [eexists; split; reflexivity|]). constructor.
  - apply (proj2 (C8_no_variable_ids git_stdout variables bare_chart _ Hbare)).
    reflexivity.
Defined.

(** The config is a JSON object without [chart-dimensions]; no tag is
    returned. *)
Lemma C8_counterexample :
  json_loads (Chart.config bare_chart) = Some (JDict bare_dict)
  /\ dict_get "chart-dimensions" bare_dict = None
  /\ is_ok (Chart.make_cache_tag git_stdout variables bare_chart) = false.
Proof. repeat split; decoded. Qed.

Lemma C9_witness :
  exists out,
    Chart.get_config_with_url logos tagged_chart = Ok (JDict out)
    /\ dict_get "logosSVG" out
       = Some (JList (map JStr
           (map Logo.svg
              (filter (fun each => mem_string (Logo.name each) ["partner"; "OWD"]) logos)))).
Proof.
  apply (C9_logosSVG_in_table_order logos tagged_chart tagged_dict ["partner"; "OWD"]);
    decoded.
Defined.

(** Requested [partner] then [OWD]: the table holds [OWD] first, and so does
    [logosSVG]. *)
Lemma C9_counterexample :
  exists out,
    Chart.get_config_with_url logos tagged_chart = Ok (JDict out)
    /\ dict_get "logos" out = Some (JList [JStr "partner"; JStr "OWD"])
    /\ dict_get "logosSVG" out
       = Some (JList [JStr "<svg>owd</svg>"; JStr "<svg>partner</svg>"])
    /\ logos_svg_in_requested_order ["partner"; "OWD"] logos
       = ["<svg>partner</svg>"; "<svg>owd</svg>"]
    /\ dict_get "logosSVG" out
       <> Some (JList (map JStr (logos_svg_in_requested_order ["partner"; "OWD"] logos))).
Proof.
  eexists. split; [decoded|]. repeat split; try decoded.
  vm_compute. discriminate.
Qed.

Lemma C10_witness :
  (exists e, Chart.make_cache_tag git_stdout variables null_id_chart = Raise e)
  /\ Chart.make_cache_tag git_stdout variables tagged_chart
     = Ok (tag_for git_stdout variables tagged_chart [12; 7]).
Proof.
  assert (Hnull : json_loads (Chart.config null_id_chart)
                  = Some (JDict [("chart-dimensions", JList null_id_dims); ("logos", JList [])]))
    by decoded.
  assert (Htagged : json_loads (Chart.config tagged_chart) = Some (JDict tagged_dict))
    by decoded.
  split.
  - apply (proj1 (C10_variable_ids_are_coerced git_stdout variables null_id_chart
                    _ null_id_dims Hnull eq_refl)
             [("variableId", JNull)] JNull TypeError).
    + simpl. tauto.
    + reflexivity.
    + reflexivity.
  - apply (proj2 (C10_variable_ids_are_coerced git_stdout variables tagged_chart
                    _ tagged_dims Htagged eq_refl)).
    + repeat (constructor; [eexists; reflexivity|]). constructor.
    + exists [12; 7]. split; [repeat constructor | reflexivity].
Defined.

End Evaluated.

(* ===================================================================== *)
(** ** owid_commit *)
(* ===================================================================== *)

Lemma bytes_repr_escape b :
  bytes_repr b =
    let bs := list_ascii_of_string b in
    let quote :=
      if existsb (Ascii.eqb "'"%char) bs && negb (existsb (Ascii.eqb (ascii_of_nat 34)) bs)
      then ascii_of_nat 34 else "'"%char in
    "b" ++ String quote (concat "" (map (escape_byte quote) bs)) ++ String quote "".
Proof. reflexivity. Qed.

Lemma append_assoc_string (a b c : string) : (a ++ b) ++ c = a ++ (b ++ c).
Proof. induction a as [|x a IH]; simpl; [reflexivity | now rewrite IH]. Qed.

Lemma append_empty_r (a : string) : a ++ "" = a.
Proof. induction a as [|x a IH]; simpl; [reflexivity | now rewrite IH]. Qed.

Lemma concat_empty_cons (x : string) (xs : list string) :
  concat "" (x :: xs) = x ++ concat "" xs.
Proof. destruct xs; simpl; [now rewrite append_empty_r | reflexivity]. Qed.

Lemma escape_plain_byte c :
  plain_byte c = true -> escape_byte "'" c = String c "".
Proof.
  destruct c as [[] [] [] [] [] [] [] []]; intros H;
    first [ reflexivity | vm_compute in H; discriminate H ].
Qed.

Lemma plain_byte_not_quote c :
  plain_byte c = true -> Ascii.eqb "'" c = false.
Proof.
  destruct c as [[] [] [] [] [] [] [] []]; intros H;
    first [ reflexivity | vm_compute in H; discriminate H ].
Qed.

Lemma no_quote_in_plain_line s :
  forallb plain_byte (list_ascii_of_string s) = true ->
  existsb (Ascii.eqb "'"%char) (list_ascii_of_string (s ++ String "010" "")) = false.
Proof.
  induction s as [|c s IH]; [reflexivity|].
  cbn [list_ascii_of_string append forallb existsb].
  rewrite andb_true_iff. intros [Hc Hs].
  now rewrite (plain_byte_not_quote _ Hc), IH.
Qed.

Lemma escape_plain_line s :
  forallb plain_byte (list_ascii_of_string s) = true ->
  concat "" (map (escape_byte "'") (list_ascii_of_string (s ++ String "010" "")))
  = s ++ "\n".
Proof.
  induction s as [|c s IH]; [reflexivity|].
  cbn [list_ascii_of_string append forallb map]. rewrite andb_true_iff. intros [Hc Hs].
  rewrite concat_empty_cons, (escape_plain_byte _ Hc), (IH Hs). reflexivity.
Qed.

(** X1: when [git rev-parse HEAD] prints a line of printable characters
    without quote or backslash, [owid_commit] is not that line but its
    [bytes] literal: [b'], the characters, a backslash and [n] for the
    newline, and the closing quote. *)
Theorem owid_commit_is_bytes_literal (line : string) :
  forallb plain_byte (list_ascii_of_string line) = true ->
  Chart.owid_commit (line ++ String "010" "") = "b'" ++ line ++ "\n'".
Proof.
  intros H. unfold Chart.owid_commit. rewrite bytes_repr_escape. cbv zeta.
  rewrite (no_quote_in_plain_line _ H). cbn [andb].
  rewrite (escape_plain_line _ H). cbn [append].
  now rewrite append_assoc_string.
Qed.

(* ===================================================================== *)
(** ** make_cache_tag: format and domain *)
(* ===================================================================== *)

Lemma hex_digit_lower n : is_lower_hex (Hashlib.hex_digit (n mod 16)) = true.
Proof.
  assert (H : 0 <= n mod 16 < 16) by (apply Z.mod_pos_bound; lia).
  assert (Hc : n mod 16 = 0 \/ n mod 16 = 1 \/ n mod 16 = 2 \/ n mod 16 = 3
            \/ n mod 16 = 4 \/ n mod 16 = 5 \/ n mod 16 = 6 \/ n mod 16 = 7
            \/ n mod 16 = 8 \/ n mod 16 = 9 \/ n mod 16 = 10 \/ n mod 16 = 11
            \/ n mod 16 = 12 \/ n mod 16 = 13 \/ n mod 16 = 14 \/ n mod 16 = 15) by lia.
  repeat (destruct Hc as [-> | Hc]; [reflexivity|]). now rewrite Hc.
Qed.

Lemma hex_lower bs : forallb is_lower_hex (list_ascii_of_string (Hashlib.hex bs)) = true.
Proof.
  induction bs as [|b bs IH]; [reflexivity|].
  change (Hashlib.hex (b :: bs)) with (Hashlib.hex_byte b ++ Hashlib.hex bs).
  unfold Hashlib.hex_byte. cbn [append list_ascii_of_string forallb].
  now rewrite !hex_digit_lower, IH.
Qed.

Section MakeCacheTagDomain.
Context {rt : Runtime}.

Lemma make_cache_tag_returns git_stdout variables self tag :
  Chart.make_cache_tag git_stdout variables self = Ok tag ->
  exists msg, tag = Hashlib.md5_hexdigest msg.
Proof.
  unfold Chart.make_cache_tag. intros H.
  destruct (loads (Chart.config self)) as [config|e]; cbn [bind] in H; [|discriminate].
  destruct (py_getitem config "chart-dimensions") as [dims|e]; cbn [bind] in H; [|discriminate].
  destruct (py_iter dims) as [items|e]; cbn [bind] in H; [|discriminate].
  destruct (Chart.varids_of items) as [ids|e]; cbn [bind] in H; [|discriminate].
  injection H as <-. now eexists.
Qed.

(** X2: every tag [make_cache_tag] returns is 32 characters long, each one of
    [0123456789abcdef]. *)
Theorem cache_tag_is_lowercase_hex git_stdout variables self tag :
  Chart.make_cache_tag git_stdout variables self = Ok tag ->
  String.length tag = 32%nat
  /\ forallb is_lower_hex (list_ascii_of_string tag) = true.
Proof.
  intros H. destruct (make_cache_tag_returns _ _ _ _ H) as [msg ->]. split.
  - apply md5_hexdigest_length.
  - apply hex_lower.
Qed.

(** X3: a stored config that is JSON but not an object (a list, a text, a
    number, [true], [false] or [null]) makes both [get_config_with_url] and
    [make_cache_tag] raise [TypeError]. *)
Theorem non_object_config_raises_TypeError git_stdout variables logos chart v :
  json_loads (Chart.config chart) = Some v ->
  (forall d, v <> JDict d) ->
  Chart.get_config_with_url logos chart = Raise TypeError
  /\ Chart.make_cache_tag git_stdout variables chart = Raise TypeError.
Proof.
  intros Hload Hv. unfold Chart.get_config_with_url, Chart.make_cache_tag, loads.
  rewrite Hload. destruct v; try (split; reflexivity).
  exfalso. now apply (Hv d).
Qed.

(** X4: a [chart-dimensions] that is [null], a boolean or a number cannot be
    iterated: [make_cache_tag] raises [TypeError]. *)
Theorem scalar_dimensions_raise_TypeError git_stdout variables self d dims :
  json_loads (Chart.config self) = Some (JDict d) ->
  dict_get "chart-dimensions" d = Some dims ->
  (dims = JNull \/ (exists b, dims = JBool b) \/ (exists n, dims = JInt n)
   \/ (exists f, dims = JFloat f)) ->
  Chart.make_cache_tag git_stdout variables self = Raise TypeError.
Proof.
  intros Hload Hdims Hscalar. unfold Chart.make_cache_tag, loads. rewrite Hload.
  cbn [bind py_getitem]. rewrite Hdims. cbn [bind].
  destruct Hscalar as [-> | [[b ->] | [[n ->] | [f ->]]]]; reflexivity.
Qed.

Lemma list_holds_text k l :
  existsb (fun y => match y with JStr s => String.eqb k s | _ => false end) l = true
  <-> In (JStr k) l.
Proof.
  rewrite existsb_exists. split.
  - intros (y & Hy & Heq). destruct y; try discriminate.
    apply String.eqb_eq in Heq. now subst.
  - intros H. exists (JStr k). split; [exact H | apply String.eqb_refl].
Qed.

Lemma varids_of_returns_iff items :
  (exists ids, Chart.varids_of items = Ok ids) <-> Forall passes_comprehension items.
Proof.
  induction items as [|x items IH].
  - split; [constructor | intros _; now exists []].
  - cbn [Chart.varids_of]. split.
    + intros [ids H]. destruct x as [| | | |s|l|d]; cbn [py_contains bind] in H;
        try discriminate.
      * destruct (contains "variableId" s) eqn:E; [discriminate|].
        constructor; [exact E | apply IH; now exists ids].
      * destruct (existsb _ l) eqn:E; [discriminate|].
        constructor; [|apply IH; now exists ids].
        cbn [passes_comprehension]. rewrite <- list_holds_text, E. discriminate.
      * destruct (dict_get "variableId" d) as [v|] eqn:E.
        -- cbn [py_getitem bind] in H. rewrite E in H. cbn [bind] in H.
           destruct (py_int v) as [n|e] eqn:Hn; cbn [bind] in H; [|discriminate].
           destruct (Chart.varids_of items) as [ns|e] eqn:Hns; cbn [bind] in H;
             [|discriminate].
           constructor; [|apply IH; now exists ns].
           cbn [passes_comprehension]. rewrite E. now exists n.
        -- constructor; [|apply IH; now exists ids].
           cbn [passes_comprehension]. now rewrite E.
    + intros H. inversion H as [|? ? Hx Hrest]; subst.
      apply IH in Hrest. destruct Hrest as [ns Hns].
      destruct x as [| | | |s|l|d]; cbn [passes_comprehension] in Hx; try contradiction;
        cbn [py_contains bind].
      * rewrite Hx. now exists ns.
      * destruct (existsb _ l) eqn:E.
        -- exfalso. apply Hx. now apply list_holds_text.
        -- now exists ns.
      * destruct (dict_get "variableId" d) as [v|] eqn:E.
        -- destruct Hx as [n Hn]. cbn [py_getitem bind]. rewrite E. cbn [bind].
           rewrite Hn, Hns. cbn [bind]. now eexists.
        -- now exists ns.
Qed.

(** X5: over a [chart-dimensions] list [make_cache_tag] returns a tag exactly
    when every item gets past the comprehension: a dict needs a missing or
    convertible [variableId]; a list or a text is skipped unless it holds
    (contains) the text [variableId]; [null], booleans and numbers make it
    raise. *)
Theorem make_cache_tag_returns_iff git_stdout variables self d items :
  json_loads (Chart.config self) = Some (JDict d) ->
  dict_get "chart-dimensions" d = Some (JList items) ->
  (exists tag, Chart.make_cache_tag git_stdout variables self = Ok tag)
  <-> Forall passes_comprehension items.
Proof.
  intros Hload Hdims. rewrite (make_cache_tag_dims _ _ _ _ _ Hload Hdims).
  rewrite <- varids_of_returns_iff. split.
  - intros [tag H]. destruct (Chart.varids_of items) as [ids|e]; [now exists ids | discriminate].
  - intros [ids ->]. now eexists.
Qed.

Lemma mem_Z_spec x l : mem_Z x l = true <-> In x l.
Proof.
  unfold mem_Z. rewrite existsb_exists. split.
  - intros (y & Hy & Heq). apply Z.eqb_eq in Heq. now subst.
  - intros H. exists x. split; [exact H | apply Z.eqb_refl].
Qed.

(** X6: the tag depends on the dimensions only through which rows of the
    variables table they name: the order of the dimensions, a repeated id and
    an id of no row change nothing. *)
Theorem cache_tag_depends_on_named_rows git_stdout variables
    self1 self2 d1 d2 dims1 dims2 ids1 ids2 :
  json_loads (Chart.config self1) = Some (JDict d1) ->
  json_loads (Chart.config self2) = Some (JDict d2) ->
  dict_get "chart-dimensions" d1 = Some (JList dims1) ->
  dict_get "chart-dimensions" d2 = Some (JList dims2) ->
  Forall is_dict dims1 -> Forall is_dict dims2 ->
  Forall2 (fun v n => py_int v = Ok n) (variableId_values dims1) ids1 ->
  Forall2 (fun v n => py_int v = Ok n) (variableId_values dims2) ids2 ->
  Chart.updated_at self1 = Chart.updated_at self2 ->
  (forall row, In row variables ->
     (In (Variable_.pk row) ids1 <-> In (Variable_.pk row) ids2)) ->
  Chart.make_cache_tag git_stdout variables self1
  = Chart.make_cache_tag git_stdout variables self2.
Proof.
  intros Hl1 Hl2 Hd1 Hd2 Hr1 Hr2 Hi1 Hi2 Hts Hsame.
  rewrite (make_cache_tag_dims _ _ _ _ _ Hl1 Hd1), (make_cache_tag_dims _ _ _ _ _ Hl2 Hd2).
  rewrite (varids_of_records _ _ Hr1 Hi1), (varids_of_records _ _ Hr2 Hi2).
  cbn [bind]. unfold tag_for. rewrite Hts.
  rewrite (filter_ext_in (fun v => mem_Z (Variable_.pk v) ids1)
             (fun v => mem_Z (Variable_.pk v) ids2)); [reflexivity|].
  intros row Hrow. apply eq_true_iff_eq. rewrite !mem_Z_spec. now apply Hsame.
Qed.

End MakeCacheTagDomain.

(* ===================================================================== *)
(** ** get_config_with_url: what the returned object keeps *)
(* ===================================================================== *)

Lemma keys_dict_set_in k v d x :
  In x (map fst (dict_set k v d)) -> x = k \/ In x (map fst d).
Proof.
  induction d as [|[k' v'] d IH]; simpl.
  - intros [<- | []]. now left.
  - destruct (String.eqb k k') eqn:E; simpl.
    + apply String.eqb_eq in E. subst k'. tauto.
    + intros [<- | H]; [tauto|]. destruct (IH H); tauto.
Qed.

Lemma keys_dict_set_prefix k v d :
  exists added,
    map fst (dict_set k v d) = (map fst d ++ added)%list
    /\ forall x, In x added -> x = k.
Proof.
  induction d as [|[k' v'] d (added & IH & Hadded)]; simpl.
  - exists [k]. split; [reflexivity|]. now intros x [<- | []].
  - destruct (String.eqb k k') eqn:E; simpl.
    + apply String.eqb_eq in E. subst k'. exists []. split; [|intros x []].
      now rewrite app_nil_r.
    + exists added. split; [now rewrite IH | exact Hadded].
Qed.

Lemma keys_dict_set_NoDup k v d :
  NoDup (map fst d) -> NoDup (map fst (dict_set k v d)).
Proof.
  induction d as [|[k' v'] d IH]; simpl; intros H.
  - constructor; [intros [] | constructor].
  - inversion H as [|? ? Hnotin Hnd]; subst.
    destruct (String.eqb k k') eqn:E; simpl.
    + apply String.eqb_eq in E. subst k'. now constructor.
    + constructor; [|now apply IH].
      intros Hin. apply keys_dict_set_in in Hin. destruct Hin as [-> | Hin].
      * now rewrite String.eqb_refl in E.
      * contradiction.
Qed.

Section GetConfigMore.
Context {rt : Runtime}.

Lemma get_config_with_url_from logos chart stored out :
  json_loads (Chart.config chart) = Some (JDict stored) ->
  Chart.get_config_with_url logos chart = Ok (JDict out) ->
  exists names,
    out = dict_set "logosSVG" (JList (map JStr (logos_svg names logos)))
            (with_chart_fields chart stored).
Proof.
  intros Hload H. apply get_config_with_url_returns in H.
  destruct H as (d & requested & names & Hload' & _ & _ & Hout).
  rewrite Hload in Hload'. injection Hload' as <-. injection Hout as ->.
  now exists names.
Qed.

(** X7: every key of the stored object other than the eight assigned ones
    ([logos] among them) is in the returned object with its stored value, and
    a key absent from the stored object stays absent. *)
Theorem other_stored_keys_are_kept logos chart stored out k :
  json_loads (Chart.config chart) = Some (JDict stored) ->
  Chart.get_config_with_url logos chart = Ok (JDict out) ->
  ~ In k assigned_keys ->
  dict_get k out = dict_get k stored.
Proof.
  intros Hload H Hk. destruct (get_config_with_url_from _ _ _ _ Hload H) as [names ->].
  unfold with_chart_fields.
  repeat (rewrite dict_get_set_ne;
          [|intros <-; apply Hk; unfold assigned_keys; simpl; tauto]).
  reflexivity.
Qed.

(** X8: [get_config_with_url] returns exactly when the stored config decodes
    to an object that has a [logos] key whose value the [name__in] lookup
    accepts. *)
Theorem get_config_with_url_returns_iff logos chart :
  (exists cfg, Chart.get_config_with_url logos chart = Ok cfg)
  <-> exists d requested names,
        json_loads (Chart.config chart) = Some (JDict d)
        /\ dict_get "logos" d = Some requested
        /\ name_in_names requested = Ok names.
Proof.
  split.
  - intros [cfg H]. apply get_config_with_url_returns in H.
    destruct H as (d & requested & names & Hload & Hl & Hn & _).
    rewrite logos_absent_after_assignments in Hl. now exists d, requested, names.
  - intros (d & requested & names & Hload & Hl & Hn).
    rewrite (get_config_with_url_dict _ _ _ Hload). cbn [py_getitem].
    rewrite logos_absent_after_assignments, Hl. cbn [bind]. rewrite Hn. cbn [bind].
    now eexists.
Qed.

Lemma mem_string_spec x l : mem_string x l = true <-> In x l.
Proof.
  unfold mem_string. rewrite existsb_exists. split.
  - intros (y & Hy & Heq). apply String.eqb_eq in Heq. now subst.
  - intros H. exists x. split; [exact H | apply String.eqb_refl].
Qed.

(** X9: [logosSVG] depends on the requested names only through which rows of
    the logos table they name: their order, a repeated name and a name of no
    row change nothing. *)
Theorem logosSVG_depends_on_named_rows logos chart1 chart2 d1 d2 names1 names2 :
  json_loads (Chart.config chart1) = Some (JDict d1) ->
  json_loads (Chart.config chart2) = Some (JDict d2) ->
  dict_get "logos" d1 = Some (JList (map JStr names1)) ->
  dict_get "logos" d2 = Some (JList (map JStr names2)) ->
  (forall row, In row logos ->
     (In (Logo.name row) names1 <-> In (Logo.name row) names2)) ->
  exists out1 out2,
    Chart.get_config_with_url logos chart1 = Ok (JDict out1)
    /\ Chart.get_config_with_url logos chart2 = Ok (JDict out2)
    /\ dict_get "logosSVG" out1 = dict_get "logosSVG" out2.
Proof.
  intros Hl1 Hl2 Hn1 Hn2 Hsame.
  rewrite (get_config_with_url_dict _ _ _ Hl1), (get_config_with_url_dict _ _ _ Hl2).
  cbn [py_getitem]. rewrite !logos_absent_after_assignments, Hn1, Hn2.
  cbn [bind]. rewrite !name_in_names_text. cbn [bind].
  eexists _, _. split; [reflexivity|]. split; [reflexivity|].
  rewrite !dict_get_set_eq. unfold logos_svg, objects_filter.
  rewrite (filter_ext_in (fun each => mem_string (Logo.name each) names1)
             (fun each => mem_string (Logo.name each) names2)); [reflexivity|].
  intros row Hrow. apply eq_true_iff_eq. rewrite !mem_string_spec. now apply Hsame.
Qed.

(** X10: whatever [logos] holds, the [logosSVG] of a returned object is a
    list of texts, each the payload of a row of the logos table, and no
    longer than the table; a stored [logosSVG] is replaced. *)
Theorem logosSVG_holds_table_payloads logos chart out :
  Chart.get_config_with_url logos chart = Ok (JDict out) ->
  exists rows,
    dict_get "logosSVG" out = Some (JList (map (fun row => JStr (Logo.svg row)) rows))
    /\ (forall row, In row rows -> In row logos)
    /\ (List.length rows <= List.length logos)%nat.
Proof.
  intros H. apply get_config_with_url_returns in H.
  destruct H as (d & requested & names & _ & _ & _ & Hout). injection Hout as ->.
  exists (filter (fun each => mem_string (Logo.name each) names) logos).
  split; [|split].
  - rewrite dict_get_set_eq. unfold logos_svg, objects_filter. now rewrite map_map.
  - intros row Hrow. now apply filter_In in Hrow.
  - apply filter_length_le.
Qed.

(** X11: the returned object keeps the stored keys in their stored order,
    the keys it adds come after them, and no key is repeated if none was. *)
Theorem stored_key_order_is_kept logos chart stored out :
  json_loads (Chart.config chart) = Some (JDict stored) ->
  Chart.get_config_with_url logos chart = Ok (JDict out) ->
  (exists added,
     map fst out = (map fst stored ++ added)%list
     /\ forall k, In k added -> In k assigned_keys)
  /\ (NoDup (map fst stored) -> NoDup (map fst out)).
Proof.
  intros Hload H. destruct (get_config_with_url_from _ _ _ _ Hload H) as [names ->].
  unfold with_chart_fields. split.
  - assert (Hstep : forall k v d0,
              In k assigned_keys ->
              (exists added, map fst d0 = (map fst stored ++ added)%list
                             /\ forall x, In x added -> In x assigned_keys) ->
              exists added, map fst (dict_set k v d0) = (map fst stored ++ added)%list
                            /\ forall x, In x added -> In x assigned_keys).
    { intros k v d0 Hk (added & Heq & Hadded).
      destruct (keys_dict_set_prefix k v d0) as (more & Hmore & Honly).
      exists (added ++ more)%list. split.
      - now rewrite Hmore, Heq, app_assoc.
      - intros x Hx. apply in_app_or in Hx. destruct Hx as [Hx | Hx].
        + now apply Hadded.
        + now rewrite (Honly x Hx). }
    repeat (apply Hstep; [unfold assigned_keys; simpl; tauto|]).
    exists []. split; [now rewrite app_nil_r | intros x []].
  - intros Hnd. now repeat apply keys_dict_set_NoDup.
Qed.

End GetConfigMore.

(* ===================================================================== *)
(** ** find_with_redirects: outcomes *)
(* ===================================================================== *)

Lemma objects_get_raises {A} m (cond : A -> bool) table e :
  objects_get m cond table = Raise e ->
  (e = DoesNotExist m /\ forall x, In x table -> cond x = false)
  \/ e = MultipleObjectsReturned m.
Proof.
  unfold objects_get, objects_filter. intros H.
  destruct (filter cond table) as [|y [|z rest]] eqn:E; try discriminate.
  - injection H as <-. left. split; [reflexivity|].
    intros x Hx. destruct (cond x) eqn:Ex; [|reflexivity].
    assert (Hin : In x (filter cond table)) by (apply filter_In; now split).
    rewrite E in Hin. contradiction.
  - injection H as <-. now right.
Qed.

Lemma objects_get_two {A} m (cond : A -> bool) table a b :
  In a table -> In b table -> a <> b -> cond a = true -> cond b = true ->
  objects_get m cond table = Raise (MultipleObjectsReturned m).
Proof.
  intros Ha Hb Hne Hca Hcb. unfold objects_get, objects_filter.
  assert (Hfa : In a (filter cond table)) by (apply filter_In; now split).
  assert (Hfb : In b (filter cond table)) by (apply filter_In; now split).
  destruct (filter cond table) as [|y [|z rest]]; [contradiction | | reflexivity].
  exfalso. destruct Hfa as [<- | []]. destruct Hfb as [<- | []]. now apply Hne.
Qed.

Section FindWithRedirectsOutcomes.
Context {rt : Runtime}.

(** X12: a chart [find_with_redirects] returns is a row of the table with a
    non-null [published], and it either matches the identifier by slug or id
    or is the target of a redirect row for the identifier. *)
Theorem found_chart_is_published_row charts redirects ident c :
  Chart.find_with_redirects charts redirects ident = Ok (Chart.Found c) ->
  In c charts
  /\ Chart.published c <> None
  /\ (Chart.slug c = Some ident
      \/ int_of_str ident = Some (Chart.pk c)
      \/ exists r, In r redirects /\ ChartSlugRedirect.slug r = ident
                   /\ ChartSlugRedirect.chart_id r = Chart.pk c).
Proof.
  unfold Chart.find_with_redirects. intros H.
  destruct (Chart.first_lookup charts ident) as [c'|e] eqn:E1.
  - injection H as ->. unfold Chart.first_lookup in E1.
    apply objects_get_returns in E1. destruct E1 as [Hin Hcond].
    apply first_condition_spec in Hcond. destruct Hcond as [Hm Hp].
    repeat split; try assumption. tauto.
  - destruct e as [| | | | |m|m]; try discriminate. destruct m; [|discriminate].
    destruct (objects_get ChartSlugRedirectModel _ redirects) as [r|e] eqn:E2.
    + apply objects_get_returns in E2. destruct E2 as [Hr Hs].
      apply String.eqb_eq in Hs.
      destruct (objects_get ChartModel _ charts) as [c'|e] eqn:E3;
        cbn [bind] in H; [|discriminate].
      injection H as ->. apply objects_get_returns in E3. destruct E3 as [Hin Hcond].
      rewrite andb_true_iff, Z.eqb_eq, published_notnull_spec in Hcond.
      destruct Hcond as [Hpk Hp]. repeat split; try assumption.
      right. right. exists r. repeat split; try assumption. now symmetry.
    + destruct e as [| | | | |m|m]; try discriminate. destruct m; discriminate.
Qed.

(** X13: when two different rows both match the identifier in the first
    query (one by slug, one by id, say), [find_with_redirects] raises
    [Chart.MultipleObjectsReturned]; the redirects are not consulted. *)
Theorem ambiguous_identifier_raises charts redirects ident c1 c2 :
  In c1 charts -> In c2 charts -> c1 <> c2 ->
  first_lookup_match ident c1 -> first_lookup_match ident c2 ->
  Chart.find_with_redirects charts redirects ident
  = Raise (MultipleObjectsReturned ChartModel).
Proof.
  intros H1 H2 Hne Hm1 Hm2. unfold Chart.find_with_redirects, Chart.first_lookup.
  rewrite (objects_get_two ChartModel _ charts c1 c2 H1 H2 Hne);
    [reflexivity | now apply first_condition_spec | now apply first_condition_spec].
Qed.

(** X14: [find_with_redirects] returns [False] exactly when no row of the
    charts table matches the identifier in the first query and no redirect
    row has the identifier as its slug. *)
Theorem returns_False_iff charts redirects ident :
  Chart.find_with_redirects charts redirects ident = Ok Chart.False_
  <-> (forall c, In c charts -> ~ first_lookup_match ident c)
      /\ (forall r, In r redirects -> ChartSlugRedirect.slug r <> ident).
Proof.
  unfold Chart.find_with_redirects. split.
  - intros H.
    destruct (Chart.first_lookup charts ident) as [c'|e] eqn:E1; [discriminate|].
    destruct e as [| | | | |m|m]; try discriminate. destruct m; [|discriminate].
    unfold Chart.first_lookup in E1. apply objects_get_raises in E1.
    destruct E1 as [[_ Hnone] | E1]; [|discriminate]. split.
    + intros c Hc Hm. apply first_condition_spec in Hm.
      rewrite (Hnone c Hc) in Hm. discriminate.
    + destruct (objects_get ChartSlugRedirectModel _ redirects) as [r|e] eqn:E2.
      * destruct (objects_get ChartModel _ charts); discriminate.
      * apply objects_get_raises in E2. destruct E2 as [[_ Hnone2] | ->]; [|discriminate].
        intros r Hr Hs. specialize (Hnone2 r Hr). apply String.eqb_neq in Hnone2.
        contradiction.
  - intros [Hmiss Hnone]. rewrite (first_lookup_misses _ _ Hmiss).
    rewrite objects_get_none; [reflexivity|].
    intros r Hr. apply String.eqb_neq. now apply Hnone.
Qed.

(** X15: the only exceptions that leave [find_with_redirects] are
    [Chart.DoesNotExist], [Chart.MultipleObjectsReturned] and
    [ChartSlugRedirect.MultipleObjectsReturned]: the [ValueError] of [int] on
    a non-numeric identifier and [ChartSlugRedirect.DoesNotExist] are
    handled. *)
Theorem escaping_exceptions charts redirects ident e :
  Chart.find_with_redirects charts redirects ident = Raise e ->
  e = DoesNotExist ChartModel
  \/ e = MultipleObjectsReturned ChartModel
  \/ e = MultipleObjectsReturned ChartSlugRedirectModel.
Proof.
  unfold Chart.find_with_redirects. intros H.
  destruct (Chart.first_lookup charts ident) as [c'|e1] eqn:E1; [discriminate|].
  unfold Chart.first_lookup in E1. apply objects_get_raises in E1.
  destruct E1 as [[-> _] | ->]; [|injection H as <-; tauto].
  destruct (objects_get ChartSlugRedirectModel _ redirects) as [r|e2] eqn:E2.
  - destruct (objects_get ChartModel _ charts) as [c'|e3] eqn:E3;
      cbn [bind] in H; [discriminate|].
    injection H as <-. apply objects_get_raises in E3.
    destruct E3 as [[-> _] | ->]; tauto.
  - apply objects_get_raises in E2. destruct E2 as [[-> _] | ->]; [discriminate|].
    injection H as <-. tauto.
Qed.

End FindWithRedirectsOutcomes.

(* ===================================================================== *)
(** ** The further statements on the fixture rows *)
(* ===================================================================== *)

Module EvaluatedMore.
Import Reference Fixtures MoreFixtures.

Ltac decoded := vm_compute; reflexivity.

Ltac no_first_match :=
  let c := fresh "c" in
  let H := fresh "H" in
  intros c H; simpl in H;
  repeat (destruct H as [<- | H]; [intros [[? | ?] ?]; vm_compute in *; congruence|]);
  contradiction.

(** Names the object [get_config_with_url] returns for [chart] as [H]. *)
Ltac returned_config chart H :=
  let r := eval vm_compute in (Chart.get_config_with_url logos chart) in
  match r with
  | Ok (JDict ?o) =>
      assert (H : Chart.get_config_with_url logos chart = Ok (JDict o)) by decoded
  end.

Lemma owid_commit_witness : Chart.owid_commit git_stdout = "b'abc123\n'".
Proof. apply (owid_commit_is_bytes_literal "abc123"). reflexivity. Defined.

Lemma cache_tag_format_witness :
  String.length "36c8936ca7a9c55ad4181fa390976efb" = 32%nat
  /\ forallb is_lower_hex (list_ascii_of_string "36c8936ca7a9c55ad4181fa390976efb") = true.
Proof.
  apply (cache_tag_is_lowercase_hex git_stdout variables tagged_chart). decoded.
Defined.

Lemma non_object_config_witness :
  Chart.get_config_with_url logos list_chart = Raise TypeError
  /\ Chart.make_cache_tag git_stdout variables list_chart = Raise TypeError.
Proof.
  apply (non_object_config_raises_TypeError git_stdout variables logos list_chart
           (JList [JDict [("logos", JList [])]])).
  - decoded.
  - discriminate.
Defined.

Lemma scalar_dimensions_witness :
  Chart.make_cache_tag git_stdout variables null_dims_chart = Raise TypeError.
Proof.
  apply (scalar_dimensions_raise_TypeError git_stdout variables null_dims_chart
           [("chart-dimensions", JNull); ("logos", JList [])] JNull).
  - decoded.
  - reflexivity.
  - now left.
Defined.

Lemma returns_iff_witness :
  (exists tag, Chart.make_cache_tag git_stdout variables mixed_chart = Ok tag)
  /\ ~ Forall passes_comprehension null_id_dims.
Proof.
  split.
  - assert (Hmixed : json_loads (Chart.config mixed_chart)
                     = Some (JDict [("chart-dimensions", JList mixed_dims); ("logos", JList [])]))
      by decoded.
    apply (proj2 (make_cache_tag_returns_iff git_stdout variables mixed_chart
                    _ mixed_dims Hmixed eq_refl)).
    repeat constructor.
    + simpl. intuition discriminate.
    + now exists 1.
  - intros H.
    assert (Hnull : json_loads (Chart.config null_id_chart)
                    = Some (JDict [("chart-dimensions", JList null_id_dims); ("logos", JList [])]))
      by decoded.
    apply (proj2 (make_cache_tag_returns_iff git_stdout variables null_id_chart
                    _ null_id_dims Hnull eq_refl)) in H.
    destruct H as [tag H]. vm_compute in H. discriminate.
Defined.

Lemma named_rows_witness :
  Chart.make_cache_tag git_stdout variables tagged_chart
  = Chart.make_cache_tag git_stdout variables shuffled_chart.
Proof.
  apply (cache_tag_depends_on_named_rows git_stdout variables tagged_chart shuffled_chart
           tagged_dict
           [("chart-dimensions", JList shuffled_dims);
            ("logos", JList [JStr "OWD"; JStr "OWD"; JStr "partner"])]
           tagged_dims shuffled_dims [12; 7] [7; 1000; 12; 7]).
  - decoded.
  - decoded.
  - reflexivity.
  - reflexivity.
  - repeat (constructor; [eexists; reflexivity|]). constructor.
  - repeat (constructor; [eexists; reflexivity|]). constructor.
  - repeat constructor.
  - repeat constructor.
  - reflexivity.
  - intros row [<- | [<- | [<- | []]]]; simpl; intuition discriminate.
Defined.

Lemma other_keys_witness :
  exists out,
    Chart.get_config_with_url logos stale_chart = Ok (JDict out)
    /\ dict_get "units" out = Some (JStr "years")
    /\ dict_get "logos" out = Some (JList [JStr "OWD"])
    /\ dict_get "subtitle" out = None.
Proof.
  returned_config stale_chart H.
  assert (Hload : json_loads (Chart.config stale_chart)
                  = Some (JDict [("id", JInt 999); ("title", JStr "stale");
                                 ("published", JBool false); ("logos", JList [JStr "OWD"]);
                                 ("units", JStr "years")])) by decoded.
  eexists. split; [exact H|]. split; [|split].
  - rewrite (other_stored_keys_are_kept _ _ _ _ "units" Hload H); [reflexivity|].
    unfold assigned_keys. simpl. intuition discriminate.
  - rewrite (other_stored_keys_are_kept _ _ _ _ "logos" Hload H); [reflexivity|].
    unfold assigned_keys. simpl. intuition discriminate.
  - rewrite (other_stored_keys_are_kept _ _ _ _ "subtitle" Hload H); [reflexivity|].
    unfold assigned_keys. simpl. intuition discriminate.
Defined.

Lemma config_returns_iff_witness :
  (exists cfg, Chart.get_config_with_url logos stale_chart = Ok cfg)
  /\ ~ exists cfg, Chart.get_config_with_url logos bare_chart = Ok cfg.
Proof.
  split.
  - apply (proj2 (get_config_with_url_returns_iff logos stale_chart)).
    eexists _, _, _. split; [decoded|]. split; [reflexivity | decoded].
  - intros H. apply (proj1 (get_config_with_url_returns_iff logos bare_chart)) in H.
    destruct H as (d & requested & names & Hload & Hl & _).
    vm_compute in Hload. injection Hload as <-. discriminate.
Defined.

Lemma logos_named_rows_witness :
  exists out1 out2,
    Chart.get_config_with_url logos tagged_chart = Ok (JDict out1)
    /\ Chart.get_config_with_url logos shuffled_chart = Ok (JDict out2)
    /\ dict_get "logosSVG" out1 = dict_get "logosSVG" out2.
Proof.
  apply (logosSVG_depends_on_named_rows logos tagged_chart shuffled_chart
           tagged_dict
           [("chart-dimensions", JList shuffled_dims);
            ("logos", JList [JStr "OWD"; JStr "OWD"; JStr "partner"])]
           ["partner"; "OWD"] ["OWD"; "OWD"; "partner"]).
  - decoded.
  - decoded.
  - reflexivity.
  - reflexivity.
  - intros row [<- | [<- | []]]; simpl; intuition discriminate.
Defined.

Lemma logos_payloads_witness :
  exists out rows,
    Chart.get_config_with_url logos shuffled_chart = Ok (JDict out)
    /\ dict_get "logosSVG" out = Some (JList (map (fun row => JStr (Logo.svg row)) rows))
    /\ (forall row, In row rows -> In row logos)
    /\ (List.length rows <= List.length logos)%nat.
Proof.
  returned_config shuffled_chart H.
  destruct (logosSVG_holds_table_payloads logos shuffled_chart _ H) as (rows & Hrows).
  eexists. exists rows. split; [exact H | exact Hrows].
Defined.

Lemma key_order_witness :
  exists out,
    Chart.get_config_with_url logos stale_chart = Ok (JDict out)
    /\ map fst out
       = ["id"; "title"; "published"; "logos"; "units";
          "chart-type"; "internalNotes"; "slug"; "data-entry-url"; "logosSVG"]
    /\ NoDup (map fst out).
Proof.
  returned_config stale_chart H.
  assert (Hload : json_loads (Chart.config stale_chart)
                  = Some (JDict [("id", JInt 999); ("title", JStr "stale");
                                 ("published", JBool false); ("logos", JList [JStr "OWD"]);
                                 ("units", JStr "years")])) by decoded.
  eexists. split; [exact H|]. split; [reflexivity|].
  apply (proj2 (stored_key_order_is_kept logos stale_chart _ _ Hload H)).
  simpl. repeat constructor; simpl; intuition discriminate.
Defined.

Lemma found_chart_witness :
  let c := chart 42 (Some "life-expectancy") (Some true) (dq "{'logos': []}") in
  In c charts
  /\ Chart.published c <> None
  /\ (Chart.slug c = Some "old-slug"
      \/ int_of_str "old-slug" = Some (Chart.pk c)
      \/ exists r, In r redirects /\ ChartSlugRedirect.slug r = "old-slug"
                   /\ ChartSlugRedirect.chart_id r = Chart.pk c).
Proof.
  intros c. apply (found_chart_is_published_row charts redirects "old-slug" c). decoded.
Defined.

Lemma ambiguous_identifier_witness :
  Chart.find_with_redirects ambiguous_charts redirects "42"
  = Raise (MultipleObjectsReturned ChartModel).
Proof.
  apply (ambiguous_identifier_raises ambiguous_charts redirects "42"
           (chart 42 (Some "life-expectancy") (Some true) (dq "{'logos': []}"))
           (chart 50 (Some "42") (Some false) (dq "{'logos': []}"))).
  - simpl. tauto.
  - simpl. tauto.
  - discriminate.
  - split; [right; decoded | discriminate].
  - split; [left; reflexivity | discriminate].
Defined.

Lemma returns_False_witness :
  Chart.find_with_redirects charts redirects "ghost" = Ok Chart.False_
  /\ ~ (forall r, In r redirects -> ChartSlugRedirect.slug r <> "broken").
Proof.
  split.
  - apply (proj2 (returns_False_iff charts redirects "ghost")). split.
    + no_first_match.
    + intros r [<- | [<- | []]]; discriminate.
  - intros Hnone.
    assert (H : Chart.find_with_redirects charts redirects "ghost" = Ok Chart.False_)
      by decoded.
    apply (proj1 (returns_False_iff charts redirects "ghost")) in H.
    apply (Hnone {| ChartSlugRedirect.pk := 2; ChartSlugRedirect.slug := "broken";
                    ChartSlugRedirect.chart_id := 999 |}); [simpl; tauto | reflexivity].
Defined.

Lemma escaping_exceptions_witness :
  MultipleObjectsReturned ChartModel = DoesNotExist ChartModel
  \/ MultipleObjectsReturned ChartModel = MultipleObjectsReturned ChartModel
  \/ MultipleObjectsReturned ChartModel = MultipleObjectsReturned ChartSlugRedirectModel.
Proof.
  apply (escaping_exceptions ambiguous_charts redirects "42"). decoded.
Defined.

Lemma dangling_witness :
  exists r, In r redirects /\ ChartSlugRedirect.slug r = "broken"
            /\ forall c, In c charts -> Chart.pk c = ChartSlugRedirect.chart_id r ->
                         Chart.published c = None.
Proof.
  apply (DoesNotExist_means_dangling charts redirects "broken"). decoded.
Defined.

End EvaluatedMore.
